(** * Message-analysis pipeline of the unified inbox backend

    Shallow embedding of the analysis chains ([app/ai/chains]), the
    orchestrating agent ([app/ai/agents/analyzer.py]), the AI service
    ([app/services/ai.py]), the rule-based fallback ([app/ai/fallback.py]),
    the vector-store deletions ([app/ai/embeddings/qdrant_client.py]) and
    the reply review workflow ([app/services/reply.py]).

    Strings are Latin-1 byte strings (Stdlib [string] over [ascii]).
    Python floats are modelled by [pyfloat]: a finite value is its exact
    rational value, with the infinities and NaN kept apart so that
    Python's [min]/[max] behave as in CPython.  An exception raised by a
    call is a value of [outcome]. *)

From Stdlib Require Import Bool Arith List Ascii String QArith Lia Permutation.
Import ListNotations.
Open Scope string_scope.

(** ** Python string primitives *)
Module PyStr.
Local Open Scope nat_scope.

Definition code (c : ascii) : nat := nat_of_ascii c.

(** [str.isspace] on Latin-1 characters: \t \n \v \f \r, the
    separators \x1c-\x1f, space, NEL (\x85) and NBSP (\xa0). *)
Definition is_space (c : ascii) : bool :=
  let n := code c in
  ((Nat.leb 9 n) && (Nat.leb n 13)) || ((Nat.leb 28 n) && (Nat.leb n 32))
  || (Nat.eqb n 133) || (Nat.eqb n 160).

(** [str.lower] on Latin-1: A-Z and À-Þ (except ×) move down by 32. *)
Definition lower_char (c : ascii) : ascii :=
  let n := code c in
  if ((Nat.leb 65 n) && (Nat.leb n 90)) || ((Nat.leb 192 n) && (Nat.leb n 222) && negb (Nat.eqb n 215))
  then ascii_of_nat (n + 32) else c.

Fixpoint lower (s : string) : string :=
  match s with
  | EmptyString => EmptyString
  | String c r => String (lower_char c) (lower r)
  end.

Fixpoint lstrip (s : string) : string :=
  match s with
  | EmptyString => EmptyString
  | String c r => if is_space c then lstrip r else s
  end.

Fixpoint rstrip (s : string) : string :=
  match s with
  | EmptyString => EmptyString
  | String c r =>
      let r' := rstrip r in
      if is_space c && String.eqb r' EmptyString then EmptyString
      else String c r'
  end.

(** [s.strip()] *)
Definition strip (s : string) : string := rstrip (lstrip s).

(** [s.startswith(p)] *)
Fixpoint startswith (p s : string) : bool :=
  match p, s with
  | EmptyString, _ => true
  | String a p', String b s' => Ascii.eqb a b && startswith p' s'
  | String _ _, EmptyString => false
  end.

(** [p in s] *)
Fixpoint contains (p s : string) : bool :=
  startswith p s ||
  match s with
  | EmptyString => false
  | String _ r => contains p r
  end.

(** [s.split(c)] for a one-character separator. *)
Fixpoint split (c : ascii) (s : string) : list string :=
  match s with
  | EmptyString => [EmptyString]
  | String x r =>
      if Ascii.eqb x c then EmptyString :: split c r
      else match split c r with
           | h :: t => String x h :: t
           | [] => [String x EmptyString]
           end
  end.

(** [s.split(c, 1)]: [None] when [c] does not occur (one part),
    otherwise the two parts around the first [c]. *)
Fixpoint split1 (c : ascii) (s : string) : option (string * string) :=
  match s with
  | EmptyString => None
  | String x r =>
      if Ascii.eqb x c then Some (EmptyString, r)
      else match split1 c r with
           | Some (a, b) => Some (String x a, b)
           | None => None
           end
  end.

Fixpoint replace_fuel (fuel : nat) (old new s : string) : string :=
  match fuel with
  | O => s
  | S f =>
      match s with
      | EmptyString => EmptyString
      | String c r =>
          if startswith old s
          then new ++ replace_fuel f old new (substring (length old) (length s) s)
          else String c (replace_fuel f old new r)
      end
  end.

(** [s.replace(old, new)] for a non-empty [old]: left to right,
    non-overlapping occurrences. *)
Definition replace (old new s : string) : string :=
  replace_fuel (length s) old new s.

(** [s[:n]] *)
Definition take (n : nat) (s : string) : string := substring 0 n s.

End PyStr.

(** ** Python floats *)
Module PyFloat.
Local Open Scope nat_scope.

Inductive pyfloat : Type :=
| Fin (q : Q)
| PInf
| NInf
| NaN.

(** [a < b]; every comparison with NaN is false. *)
Definition lt (a b : pyfloat) : bool :=
  match a, b with
  | Fin x, Fin y => negb (Qle_bool y x)
  | NInf, (Fin _ | PInf) => true
  | Fin _, PInf => true
  | _, _ => false
  end.

(** CPython's [min(a, b)] keeps [a] unless [b < a];
    [max(a, b)] keeps [a] unless [b > a]. *)
Definition min (a b : pyfloat) : pyfloat := if lt b a then b else a.
Definition max (a b : pyfloat) : pyfloat := if lt a b then b else a.

(** [max(0.0, min(1.0, x))] *)
Definition clamp01 (x : pyfloat) : pyfloat := max (Fin 0%Q) (min (Fin 1%Q) x).

Definition in_unit (x : pyfloat) : Prop :=
  match x with
  | Fin q => (0 <= q <= 1)%Q
  | _ => False
  end.

(** The binary64 values of the literals used by the source. *)
Definition lit_0_3 : Q := 5404319552844595 # 18014398509481984.
Definition lit_0_5 : Q := 1 # 2.
Definition lit_0_6 : Q := 5404319552844595 # 9007199254740992.
Definition lit_0_9 : Q := 8106479329266893 # 9007199254740992.

(** A model of Python's [float(s)] on the inputs used below: surrounding
    whitespace, an optional sign, then [inf], [infinity] or [nan] in any
    case, or decimal digits with an optional point and exponent.  The
    value is the exact decimal value (no rounding to binary64) and digit
    group underscores are not accepted; the theorems below do not depend
    on this parser but take any parser as a parameter. *)
Definition digit (c : ascii) : option nat :=
  let n := PyStr.code c in
  if (Nat.leb 48 n) && (Nat.leb n 57) then Some (n - 48) else None.

Fixpoint digits (s : string) : list nat * string :=
  match s with
  | EmptyString => ([], EmptyString)
  | String c r =>
      match digit c with
      | Some d => let (ds, rest) := digits r in (d :: ds, rest)
      | None => ([], s)
      end
  end.

Definition nat_of_digits (ds : list nat) : nat :=
  fold_left (fun acc d => acc * 10 + d) ds 0.

Definition sign_of (s : string) : bool * string :=
  match s with
  | String "-" r => (true, r)
  | String "+" r => (false, r)
  | _ => (false, s)
  end.

Definition exponent (s : string) : option Z :=
  match s with
  | EmptyString => Some 0%Z
  | String c r =>
      if (c =? "e")%char || (c =? "E")%char then
        let (neg, r') := sign_of r in
        match digits r' with
        | ((_ :: _) as ds, EmptyString) =>
            let e := Z.of_nat (nat_of_digits ds) in
            Some (if neg then Z.opp e else e)
        | _ => None
        end
      else None
  end.

Definition decimal (s : string) : option Q :=
  let (d1, r1) := digits s in
  let '(d2, r2) :=
    match r1 with
    | String "." r => digits r
    | _ => ([], r1)
    end in
  match (d1 ++ d2)%list with
  | [] => None
  | ds =>
      match exponent r2 with
      | Some e =>
          let m := inject_Z (Z.of_nat (nat_of_digits ds)) in
          let k := (e - Z.of_nat (List.length d2))%Z in
          Some (if Z.leb 0 k then (m * inject_Z (10 ^ k))%Q
                else (m / inject_Z (10 ^ (- k)))%Q)
      | None => None
      end
  end.

Definition float_of_string (s : string) : option pyfloat :=
  let (neg, body) := sign_of (PyStr.strip s) in
  let w := PyStr.lower body in
  if String.eqb w "inf" || String.eqb w "infinity" then
    Some (if neg then NInf else PInf)
  else if String.eqb w "nan" then Some NaN
  else match decimal body with
       | Some q => Some (Fin (if neg then (- q)%Q else q))
       | None => None
       end.

End PyFloat.

(** ** Results of calls that may raise *)
Inductive exc : Type :=
| InitError   (** [AIConfig.__init__]: OPENAI_API_KEY must be set *)
| ModelError  (** any error raised while invoking the model *)
| StoreError  (** any error raised by a database or vector-store client *)
| ValidationError (** a pydantic validator rejected a field *)
| ValueError  (** [raise ValueError(...)] in the service code *)
| SendFailed. (** [raise Exception("Failed to send reply: ...")] *)

Inductive outcome (A : Type) : Type :=
| Ok (a : A)
| Raise (e : exc).
Arguments Ok {A} a.
Arguments Raise {A} e.

Definition omap {A B : Type} (f : A -> B) (o : outcome A) : outcome B :=
  match o with
  | Ok a => Ok (f a)
  | Raise e => Raise e
  end.

Definition mem_str (s : string) (l : list string) : bool :=
  existsb (String.eqb s) l.

(** ** Analysis chains ([app/ai/chains]) *)
Module Chains.
Import PyStr PyFloat.
Local Open Scope nat_scope.

(** [line.split(":", 1)[1]] on a line known to contain ':' *)
Definition after_colon (line : string) : string :=
  match split1 ":"%char line with
  | Some (_, b) => b
  | None => EmptyString
  end.

(** [summarize.py]: [summary.strip()] *)
Definition summarize_parse (out : string) : string := strip out.

(** [classify.py] *)
Definition valid_intents : list string :=
  ["request"; "information"; "question"; "meeting"; "notification"; "social"; "other"].

Definition classify_parse (out : string) : string :=
  let intent := lower (strip out) in
  if mem_str intent valid_intents then intent else "other".

Section WithFloat.
(** Python's [float(s)]: [None] stands for the [ValueError]. *)
Variable py_float : string -> option pyfloat.

(** [prioritize.py], [calculate_priority] after the model call *)
Definition priority_parse (out : string) : pyfloat :=
  match py_float (strip out) with
  | Some score => clamp01 score
  | None => Fin lit_0_5
  end.

(** [spam_detection.py], the line loop of [detect_spam] *)
Record spam_fields : Type := {
  sf_is_spam : bool;
  sf_spam_score : pyfloat;
  sf_spam_type : string;
  sf_reason : string
}.

Definition spam_init : spam_fields :=
  {| sf_is_spam := false; sf_spam_score := Fin 0; sf_spam_type := "none";
     sf_reason := "Not spam" |}.

Definition spam_line (st : spam_fields) (raw : string) : spam_fields :=
  let line := strip raw in
  if startswith "IS_SPAM:" line then
    {| sf_is_spam := String.eqb (lower (strip (after_colon line))) "true";
       sf_spam_score := sf_spam_score st; sf_spam_type := sf_spam_type st;
       sf_reason := sf_reason st |}
  else if startswith "SPAM_SCORE:" line then
    let score :=
      match py_float (strip (after_colon line)) with
      | Some f => clamp01 f
      | None => if sf_is_spam st then Fin lit_0_5 else Fin 0
      end in
    {| sf_is_spam := sf_is_spam st; sf_spam_score := score;
       sf_spam_type := sf_spam_type st; sf_reason := sf_reason st |}
  else if startswith "SPAM_TYPE:" line then
    {| sf_is_spam := sf_is_spam st; sf_spam_score := sf_spam_score st;
       sf_spam_type := lower (strip (after_colon line)); sf_reason := sf_reason st |}
  else if startswith "REASON:" line then
    {| sf_is_spam := sf_is_spam st; sf_spam_score := sf_spam_score st;
       sf_spam_type := sf_spam_type st; sf_reason := strip (after_colon line) |}
  else st.

Definition spam_parse (out : string) : spam_fields :=
  fold_left spam_line (split "010"%char (strip out)) spam_init.

End WithFloat.

(** *** Regular expressions of [extract_unsubscribe_link]

    Each matcher [m] decides whether its pattern matches at the start of
    a string and returns group 1; [search m] is [re.search]: the
    leftmost position where [m] matches. *)
Fixpoint search (m : string -> option string) (s : string) : option string :=
  match m s with
  | Some g => Some g
  | None =>
      match s with
      | EmptyString => None
      | String _ r => search m r
      end
  end.

Definition drop (n : nat) (s : string) : string := substring n (length s) s.

(** [s[:i]] and [s[i:]] where [i] is the length of the longest prefix
    of characters satisfying [p] *)
Fixpoint span (p : ascii -> bool) (s : string) : string * string :=
  match s with
  | EmptyString => (EmptyString, EmptyString)
  | String c r =>
      if p c then let (a, b) := span p r in (String c a, b)
      else (EmptyString, s)
  end.

(** prefix test under [re.IGNORECASE] (Latin-1: case folding of letters) *)
Definition ci_startswith (p s : string) : bool := startswith (lower p) (lower s).
Definition ci_contains (p s : string) : bool := contains (lower p) (lower s).

Definition is_quote (c : ascii) : bool := (c =? "034")%char || (c =? "039")%char.

(** [<(https?://[^>]+)>] *)
Definition header_at (s : string) : option string :=
  match s with
  | String "<" r =>
      let scheme := if startswith "https://" r then Some "https://"
                    else if startswith "http://" r then Some "http://"
                    else None in
      match scheme with
      | Some sch =>
          match span (fun c => negb (c =? ">")%char) (drop (length sch) r) with
          | (String c t, String ">" _) => Some (sch ++ String c t)
          | _ => None
          end
      | None => None
      end
  | _ => None
  end.

(** [href=[Q]([^Q]*KW[^Q]* )[Q]], where Q stands for the double and the
    single quote, tried where [href=] must start *)
Definition href_at (kw s : string) : option string :=
  if ci_startswith "href=" s then
    match drop 5 s with
    | String q u =>
        if is_quote q then
          match span (fun c => negb (is_quote c)) u with
          | (g, String q2 _) => if is_quote q2 && ci_contains kw g then Some g else None
          | _ => None
          end
        else None
    | EmptyString => None
    end
  else None.

(** [[^>]+] followed by the [href] part: [r] is the text after at least
    one character taken by [[^>]+]; the greedy loop first tries to take
    one more character, and backtracks to [href_at] here. *)
Fixpoint anchor_rest (kw r : string) : option string :=
  match
    match r with
    | String c r' => if (c =? ">")%char then None else anchor_rest kw r'
    | EmptyString => None
    end
  with
  | Some g => Some g
  | None => href_at kw r
  end.

(** [<a[^>]+href=[Q]([^Q]*KW[^Q]* )[Q]] with [re.IGNORECASE] *)
Definition anchor_at (kw s : string) : option string :=
  match s with
  | String "<" (String a r) =>
      if (lower_char a =? "a")%char then
        match r with
        | String c r' => if (c =? ">")%char then None else anchor_rest kw r'
        | EmptyString => None
        end
      else None
  | _ => None
  end.

Definition url_char (c : ascii) : bool :=
  negb (is_space c || (c =? "<")%char || (c =? ">")%char || (c =? "034")%char).

(** [(https?://[^\s<>D]+KW[^\s<>D]* )] with [re.IGNORECASE], where D is the
    double quote *)
Definition bare_at (kw s : string) : option string :=
  let n := if ci_startswith "https://" s then Some 8
           else if ci_startswith "http://" s then Some 7 else None in
  match n with
  | Some n =>
      let (run, _) := span url_char (drop n s) in
      match run with
      | String _ tl => if ci_contains kw tl then Some (substring 0 (n + length run) s)
                       else None
      | EmptyString => None
      end
  | None => None
  end.

(** [unsubscribe_patterns], in order *)
Definition unsubscribe_patterns : list (string -> option string) :=
  [anchor_at "unsubscribe"; anchor_at "opt-out"; anchor_at "remove";
   bare_at "unsubscribe"; bare_at "opt-out"].

Fixpoint first_match (ps : list (string -> option string)) (content : string)
  : option string :=
  match ps with
  | [] => None
  | p :: ps' =>
      match search p content with
      | Some g => Some g
      | None => first_match ps' content
      end
  end.

(** [extract_unsubscribe_link(content, metadata)]; [list_unsub] is
    [metadata["list_unsubscribe"]] when that key is present. *)
Definition extract_unsubscribe_link (content : string) (list_unsub : option string)
  : option string :=
  match
    match list_unsub with
    | Some h => search header_at h
    | None => None
    end
  with
  | Some url => Some url
  | None => first_match unsubscribe_patterns content
  end.

(** [detect_spam] after the model call: [content] is the full message
    content (only its first 2000 characters are sent to the model). *)
Record spam_result : Type := {
  is_spam : bool;
  spam_score : pyfloat;
  spam_type : string;
  unsubscribe_link : option string;
  reason : string
}.

Definition unsubscribe_types : list string := ["promotional"; "newsletter"; "marketing"].

Definition detect_spam_parse (py_float : string -> option pyfloat)
    (content : string) (list_unsub : option string) (out : string) : spam_result :=
  let f := spam_parse py_float out in
  let link :=
    if sf_is_spam f && mem_str (sf_spam_type f) unsubscribe_types
    then extract_unsubscribe_link content list_unsub else None in
  {| is_spam := sf_is_spam f; spam_score := sf_spam_score f;
     spam_type := sf_spam_type f; unsubscribe_link := link; reason := sf_reason f |}.

(** [extract.py], [extract_tasks] after the model call *)
Definition task_types : list string := ["task"; "deadline"; "meeting"].

Definition task_line (raw : string) : list (string * string) :=
  let line := strip raw in
  if String.eqb line EmptyString then []
  else match split1 ":"%char line with
       | Some (a, b) =>
           let task_type := lower (strip a) in
           if mem_str task_type task_types then [(task_type, strip b)] else []
       | None => []
       end.

Definition tasks_parse (out : string) : list (string * string) :=
  let result := strip out in
  if String.eqb result "NO_TASKS" || String.eqb result EmptyString then []
  else flat_map task_line (split "010"%char result).

(** [extract.py], [detect_deadlines] after the model call *)
Definition deadline_line (raw : string) : list (string * option string) :=
  let line := strip raw in
  if String.eqb line EmptyString || negb (startswith "DEADLINE:" line) then []
  else
    let line := strip (replace "DEADLINE:" EmptyString line) in
    if contains "|" line && contains "DATE:" line then
      let parts := split "|"%char line in
      let description := strip (nth 0 parts EmptyString) in
      let date_part := strip (nth 1 parts EmptyString) in
      if startswith "DATE:" date_part then
        let date_str := strip (replace "DATE:" EmptyString date_part) in
        if mem_str (lower date_str) ["none"; "not mentioned"; EmptyString]
        then [(description, None)] else [(description, Some date_str)]
      else [(description, None)]
    else [(line, None)].

Definition deadlines_parse (out : string) : list (string * option string) :=
  let result := strip out in
  if String.eqb result "NO_DEADLINES" || String.eqb result EmptyString then []
  else flat_map deadline_line (split "010"%char result).

End Chains.

(** ** Normalized messages ([app/schemas/message.py]) *)
Record message : Type := {
  msg_id : string;
  msg_user_id : string;
  platform : string;
  sender : string;
  subject : option string;
  content : string;
  (** [metadata["list_unsubscribe"]] when the key is present *)
  meta_list_unsubscribe : option string
}.

(** [message.subject or ""] *)
Definition subject_or_empty (m : message) : string :=
  match m.(subject) with Some s => s | None => EmptyString end.

(** ** Orchestrator ([app/ai/agents/analyzer.py]) *)
Module Analyzer.
Import PyFloat Chains.

Record task : Type := { task_type : string; task_description : string;
                        task_deadline : option string }.
Record deadline : Type := { dl_description : string; dl_date : option string }.

(** [MessageAnalysisResult] *)
Record result : Type := {
  summary : string;
  intent : string;
  priority_score : pyfloat;
  tasks : list task;
  deadlines : list deadline;
  r_is_spam : bool;
  r_spam_score : pyfloat;
  r_spam_type : string;
  r_unsubscribe_link : option string
}.

(** What each chain's model call produced: its text, or the exception
    it raised (building the chain raises [InitError] when no API key is
    configured, the call itself may raise). *)
Record llm_outputs : Type := {
  out_summary : outcome string;
  out_intent : outcome string;
  out_priority : outcome string;
  out_tasks : outcome string;
  out_deadlines : outcome string;
  out_spam : outcome string
}.

(** [results[i] if not isinstance(results[i], Exception) else default] *)
Definition or_default {A : Type} (o : outcome A) (d : A) : A :=
  match o with Ok a => a | Raise _ => d end.

Definition default_spam : spam_result :=
  {| is_spam := false; spam_score := Fin 0; spam_type := "none";
     unsubscribe_link := None; reason := EmptyString |}.

(** [MessageAnalysisAgent.analyze]: the six runners are gathered with
    [return_exceptions=True], so the gather itself yields a value. *)
Definition analyze (py_float : string -> option pyfloat) (m : message)
    (o : llm_outputs) : outcome result :=
  let r_summary := omap summarize_parse o.(out_summary) in
  let r_intent := omap classify_parse o.(out_intent) in
  let r_priority := omap (priority_parse py_float) o.(out_priority) in
  let r_tasks := omap tasks_parse o.(out_tasks) in
  let r_deadlines := omap deadlines_parse o.(out_deadlines) in
  let r_spam := omap (detect_spam_parse py_float m.(content) m.(meta_list_unsubscribe))
                     o.(out_spam) in
  let spam := or_default r_spam default_spam in
  Ok {| summary := or_default r_summary "Error generating summary";
        intent := or_default r_intent "other";
        priority_score := or_default r_priority (Fin lit_0_5);
        tasks := map (fun '(ty, d) => {| task_type := ty; task_description := d;
                                         task_deadline := None |})
                     (or_default r_tasks []);
        deadlines := map (fun '(d, dt) => {| dl_description := d; dl_date := dt |})
                         (or_default r_deadlines []);
        r_is_spam := is_spam spam;
        r_spam_score := spam_score spam;
        r_spam_type := spam_type spam;
        r_unsubscribe_link := unsubscribe_link spam |}.

End Analyzer.

(** ** Rule-based fallback ([app/ai/fallback.py], [BasicTextProcessor]) *)
Module Fallback.
Import PyStr PyFloat.
Local Open Scope nat_scope.

Definition task_keywords : list string :=
  ["todo"; "task"; "action item"; "need to"; "should"; "must";
   "please"; "can you"; "could you"; "would you"].
Definition deadline_keywords : list string :=
  ["deadline"; "due"; "by"; "before"; "until"; "eod"; "eow";
   "today"; "tomorrow"; "next week"; "this week"].
Definition high_priority_keywords : list string :=
  ["urgent"; "asap"; "critical"; "important"; "emergency";
   "immediately"; "high priority"].
Definition medium_priority_keywords : list string :=
  ["soon"; "when possible"; "at your convenience"].

Definition any_in (ks : list string) (s : string) : bool :=
  existsb (fun k => contains k s) ks.

Definition generate_summary (m : message) : string :=
  let c := strip m.(content) in
  match m.(subject) with
  | Some s => if String.eqb s EmptyString then
                (if Nat.leb (length c) 150 then c else take 147 c ++ "...")
              else take 150 s
  | None => if Nat.leb (length c) 150 then c else take 147 c ++ "..."
  end.

Definition classify_intent (m : message) : string :=
  let cl := lower m.(content) in
  if contains "?" m.(content) then "question"
  else if any_in task_keywords cl then "task_request"
  else if String.eqb m.(platform) "calendar" then "meeting"
  else if any_in ["fyi"; "info"; "update"; "announcement"] cl then "information"
  else "general".

Definition calculate_priority (m : message) : pyfloat :=
  let cl := lower m.(content) in
  if any_in high_priority_keywords cl then Fin lit_0_9
  else if any_in medium_priority_keywords cl then Fin lit_0_6
  else if contains "?" m.(content) then Fin lit_0_5
  else if any_in task_keywords cl then Fin lit_0_5
  else Fin lit_0_3.

(** [re.split(r'[.!?\n]', s)] *)
Fixpoint split_sentences (s : string) : list string :=
  match s with
  | EmptyString => [EmptyString]
  | String x r =>
      if (x =? ".")%char || (x =? "!")%char || (x =? "?")%char || (x =? "010")%char
      then EmptyString :: split_sentences r
      else match split_sentences r with
           | h :: t => String x h :: t
           | [] => [String x EmptyString]
           end
  end.

(** the sentence loop of [extract_tasks]/[detect_deadlines] for one keyword *)
Definition sentence_for (k content : string) : option string :=
  find (fun sn => contains k (lower sn) && (Nat.ltb 10 (length (strip sn))))
       (split_sentences content).

Definition hits (ks : list string) (m : message) : list string :=
  flat_map (fun k =>
              if contains k (lower m.(content)) then
                match sentence_for k m.(content) with
                | Some sn => [take 200 (strip sn)]
                | None => []
                end
              else [])
           ks.

Definition analyze (m : message) : Analyzer.result :=
  {| Analyzer.summary := generate_summary m;
     Analyzer.intent := classify_intent m;
     Analyzer.priority_score := calculate_priority m;
     Analyzer.tasks := map (fun d => {| Analyzer.task_type := "task";
                                        Analyzer.task_description := d;
                                        Analyzer.task_deadline := None |})
                           (firstn 3 (hits task_keywords m));
     Analyzer.deadlines := map (fun d => {| Analyzer.dl_description := d;
                                            Analyzer.dl_date := None |})
                               (firstn 2 (hits deadline_keywords m));
     (** [FallbackResult] has no spam attributes: the [getattr] defaults *)
     Analyzer.r_is_spam := false;
     Analyzer.r_spam_score := Fin 0;
     Analyzer.r_spam_type := "none";
     Analyzer.r_unsubscribe_link := None |}.

End Fallback.

(** ** AI service ([app/services/ai.py]) *)
Module Service.
Import PyStr PyFloat Analyzer.

(** [MessageAnalysis] rows *)
Record analysis_row : Type := {
  ar_message_id : string;
  ar_summary : string;
  ar_intent : string;
  ar_priority_score : pyfloat;
  ar_is_spam : bool;
  ar_spam_score : pyfloat;
  ar_spam_type : string;
  ar_unsubscribe_link : option string
}.

(** [ActionableItem] rows; [ai_deadline] is the parsed datetime *)
Record actionable_item : Type := {
  ai_message_id : string;
  ai_user_id : string;
  ai_type : string;
  ai_description : string;
  ai_deadline : option string;
  ai_completed : bool
}.

(** [SmartReply] rows written by the analysis (status [suggestion]) *)
Record suggestion_row : Type := {
  sg_message_id : string;
  sg_user_id : string;
  sg_draft_content : string
}.

(** Qdrant points: the payload keys used by the deletions *)
Record point : Type := { pt_message_id : string; pt_user_id : string }.

Record world : Type := {
  analyses : list analysis_row;
  items : list actionable_item;
  suggestions : list suggestion_row;
  points : list point
}.

(** [MessageAnalysisSchema] *)
Record schema : Type := {
  s_message_id : string;
  s_summary : string;
  s_intent : string;
  s_priority_score : pyfloat;
  s_is_spam : bool;
  s_spam_score : pyfloat;
  s_spam_type : string;
  s_unsubscribe_link : option string;
  s_tasks : list task;
  s_deadlines : list deadline
}.

Definition in_unit_b (x : pyfloat) : bool :=
  match x with
  | Fin q => Qle_bool 0 q && Qle_bool q 1
  | _ => false
  end.

(** The pydantic validators of [priority_score] and [spam_score]
    ([Field(ge=0.0, le=1.0)]) raise on values outside [0, 1]. *)
Definition mk_schema (m : message) (r : result) : outcome schema :=
  if in_unit_b r.(priority_score) && in_unit_b r.(r_spam_score) then
    Ok {| s_message_id := m.(msg_id); s_summary := r.(summary);
          s_intent := r.(intent); s_priority_score := r.(priority_score);
          s_is_spam := r.(r_is_spam); s_spam_score := r.(r_spam_score);
          s_spam_type := r.(r_spam_type); s_unsubscribe_link := r.(r_unsubscribe_link);
          s_tasks := r.(tasks); s_deadlines := r.(deadlines) |}
  else Raise ValidationError.

(** [_is_replyable_sender] *)
Definition no_reply_patterns : list string :=
  ["no-reply"; "noreply"; "no_reply"; "donotreply"; "do-not-reply";
   "do_not_reply"; "notifications"; "automated"; "mailer-daemon"; "postmaster"].

Definition is_replyable_sender (s : string) : bool :=
  if String.eqb s EmptyString then false
  else negb (existsb (fun p => contains p (lower s)) no_reply_patterns).

(** [analysis_result.priority_score > 0.3] *)
Definition reply_threshold : pyfloat := Fin lit_0_3.

Definition should_generate_replies (r : result) (s : string) : bool :=
  negb r.(r_is_spam) && lt reply_threshold r.(priority_score) && is_replyable_sender s.

(** [try: analysis_result = await self.analyzer.analyze(message)
    except Exception: ... FallbackResult(basic_processor.analyze(message))] *)
Definition chosen_result (m : message) (analyzed : outcome result) : result :=
  match analyzed with
  | Ok r => r
  | Raise _ => Fallback.analyze m
  end.

Section WithParsers.
(** [datetime.fromisoformat]: [None] stands for the exception *)
Variable fromisoformat : string -> option string.

Definition analysis_row_of (m : message) (r : result) : analysis_row :=
  {| ar_message_id := m.(msg_id); ar_summary := r.(summary); ar_intent := r.(intent);
     ar_priority_score := r.(priority_score); ar_is_spam := r.(r_is_spam);
     ar_spam_score := r.(r_spam_score); ar_spam_type := r.(r_spam_type);
     ar_unsubscribe_link := r.(r_unsubscribe_link) |}.

Definition items_of (m : message) (r : result) : list actionable_item :=
  map (fun t => {| ai_message_id := m.(msg_id); ai_user_id := m.(msg_user_id);
                   ai_type := t.(task_type); ai_description := t.(task_description);
                   ai_deadline := None; ai_completed := false |}) r.(tasks)
  ++ map (fun d => {| ai_message_id := m.(msg_id); ai_user_id := m.(msg_user_id);
                      ai_type := "deadline"; ai_description := d.(dl_description);
                      ai_deadline := match d.(dl_date) with
                                     | Some s => fromisoformat s
                                     | None => None
                                     end;
                      ai_completed := false |}) r.(deadlines).

(** What one call of [analyze_message] returns and leaves behind;
    [suggested] records whether [_generate_reply_suggestions] was
    called. *)
Record step : Type := { ret : outcome schema; after : world; suggested : bool }.

(** [AIService.analyze_message].  [analyzed] is what
    [self.analyzer.analyze(message)] returned or raised, [commit] the
    outcome of [self.db.commit()], [sugg] what [generate_smart_replies]
    returned (the texts) or raised, [emb] the outcome of the Qdrant
    upsert. *)
Definition analyze_message (m : message) (analyzed : outcome result)
    (commit : outcome unit) (sugg : outcome (list string)) (emb : outcome unit)
    (w : world) : step :=
  let r := chosen_result m analyzed in
  match commit with
  | Raise e => {| ret := Raise e; after := w; suggested := false |}
  | Ok tt =>
      let w1 := {| analyses := w.(analyses) ++ [analysis_row_of m r];
                   items := w.(items) ++ items_of m r;
                   suggestions := w.(suggestions); points := w.(points) |} in
      let go := should_generate_replies r m.(sender) in
      let w2 :=
        if go then
          match sugg with
          | Ok texts =>
              {| analyses := w1.(analyses); items := w1.(items);
                 suggestions := w1.(suggestions) ++
                   map (fun t => {| sg_message_id := m.(msg_id);
                                    sg_user_id := m.(msg_user_id);
                                    sg_draft_content := t |}) texts;
                 points := w1.(points) |}
          | Raise _ => w1
          end
        else w1 in
      let w3 :=
        match emb with
        | Ok tt =>
            {| analyses := w2.(analyses); items := w2.(items);
               suggestions := w2.(suggestions);
               points := filter (fun p => negb (String.eqb p.(pt_message_id) m.(msg_id)))
                                w2.(points)
                         ++ [{| pt_message_id := m.(msg_id);
                                pt_user_id := m.(msg_user_id) |}] |}
        | Raise _ => w2
        end in
      {| ret := mk_schema m r; after := w3; suggested := go |}
  end.

(** [AIService.reanalyze_message]: both deletes and their commit, then
    [analyze_message]. *)
Definition reanalyze_message (m : message) (analyzed : outcome result)
    (commit : outcome unit) (sugg : outcome (list string)) (emb : outcome unit)
    (w : world) : step :=
  let w0 := {| analyses := filter (fun a => negb (String.eqb a.(ar_message_id) m.(msg_id)))
                                  w.(analyses);
               items := filter (fun i => negb (String.eqb i.(ai_message_id) m.(msg_id)))
                               w.(items);
               suggestions := w.(suggestions); points := w.(points) |} in
  analyze_message m analyzed commit sugg emb w0.

End WithParsers.

(** [QdrantManager.delete_message_embedding] / [delete_user_embeddings]:
    [client] is the outcome of [self.client.delete(...)]; the exception
    is caught and reported as [False]. *)
Definition delete_message_embedding (client : outcome unit) (mid : string)
    (pts : list point) : bool * list point :=
  match client with
  | Ok tt => (true, filter (fun p => negb (String.eqb p.(pt_message_id) mid)) pts)
  | Raise _ => (false, pts)
  end.

Definition delete_user_embeddings (client : outcome unit) (uid : string)
    (pts : list point) : bool * list point :=
  match client with
  | Ok tt => (true, filter (fun p => negb (String.eqb p.(pt_user_id) uid)) pts)
  | Raise _ => (false, pts)
  end.

(** [AIService.delete_message_data]: [db] is the outcome of the two
    relational deletes and their commit (on an exception the session is
    rolled back). *)
Definition delete_message_data (db client : outcome unit) (mid : string) (w : world)
  : bool * world :=
  match db with
  | Raise _ => (false, w)
  | Ok tt =>
      let (_, pts) := delete_message_embedding client mid w.(points) in
      (true, {| analyses := filter (fun a => negb (String.eqb a.(ar_message_id) mid))
                                   w.(analyses);
                items := filter (fun i => negb (String.eqb i.(ai_message_id) mid)) w.(items);
                suggestions := w.(suggestions); points := pts |})
  end.

(** [AIService.delete_user_data] *)
Definition delete_user_data (db client : outcome unit) (uid : string) (w : world)
  : bool * world :=
  match db with
  | Raise _ => (false, w)
  | Ok tt =>
      let (_, pts) := delete_user_embeddings client uid w.(points) in
      (true, {| analyses := w.(analyses);
                items := filter (fun i => negb (String.eqb i.(ai_user_id) uid)) w.(items);
                suggestions := w.(suggestions); points := pts |})
  end.

End Service.

(** ** Reply review workflow ([app/services/reply.py], [SmartReplyService]) *)
Module Reply.

Inductive status : Type := Suggestion | Pending | Approved | Sent | Rejected.

Definition status_eqb (a b : status) : bool :=
  match a, b with
  | Suggestion, Suggestion | Pending, Pending | Approved, Approved
  | Sent, Sent | Rejected, Rejected => true
  | _, _ => false
  end.

(** [SmartReply] rows; [reviewed]/[sent_stamp] stand for [reviewed_at]
    and [sent_at] being set. *)
Record reply : Type := {
  r_id : nat;
  r_user_id : nat;
  r_message_id : nat;
  draft_content : string;
  r_status : status;
  reviewed : bool;
  sent_stamp : bool
}.

(** [query(SmartReply).filter(id, user_id, status == "pending").first()] *)
Definition find_pending (rs : list reply) (rid uid : nat) : option reply :=
  find (fun r => Nat.eqb r.(r_id) rid && Nat.eqb r.(r_user_id) uid
                 && status_eqb r.(r_status) Pending) rs.

(** the commit of an update of the row with primary key [rid] *)
Definition update (rid : nat) (f : reply -> reply) (rs : list reply) : list reply :=
  map (fun r => if Nat.eqb r.(r_id) rid then f r else r) rs.

Definition set_status (st : status) (stamp : bool) (r : reply) : reply :=
  {| r_id := r.(r_id); r_user_id := r.(r_user_id); r_message_id := r.(r_message_id);
     draft_content := r.(draft_content); r_status := st; reviewed := true;
     sent_stamp := stamp || r.(sent_stamp) |}.

(** [approve_reply]: [messages] are the ids of stored messages, [send]
    the outcome of [_send_reply] (any exception it raises: no platform
    connection, adapter failure), [record] the outcome of
    [record_interaction]. *)
Definition approve_reply (rs : list reply) (messages : list nat) (rid uid : nat)
    (send record : outcome unit) : outcome reply * list reply :=
  match find_pending rs rid uid with
  | None => (Raise ValueError, rs)
  | Some r =>
      if negb (existsb (Nat.eqb r.(r_message_id)) messages) then (Raise ValueError, rs)
      else
        let failed rs' :=
          (Raise SendFailed, update rid (set_status Approved false) rs') in
        match send with
        | Raise _ => failed rs
        | Ok tt =>
            let rs1 := update rid (set_status Sent true) rs in
            match record with
            | Ok tt => (Ok (set_status Sent true r), rs1)
            | Raise _ => failed rs1
            end
        end
  end.

(** [edit_reply] *)
Definition edit_reply (rs : list reply) (rid uid : nat) (new_content : string)
  : outcome reply * list reply :=
  match find_pending rs rid uid with
  | None => (Raise ValueError, rs)
  | Some r =>
      let f x := {| r_id := x.(r_id); r_user_id := x.(r_user_id);
                    r_message_id := x.(r_message_id); draft_content := new_content;
                    r_status := x.(r_status); reviewed := true;
                    sent_stamp := x.(sent_stamp) |} in
      (Ok (f r), update rid f rs)
  end.

Definition status_of (rs : list reply) (rid : nat) : option status :=
  option_map r_status (find (fun r => Nat.eqb r.(r_id) rid) rs).

Definition content_of (rs : list reply) (rid : nat) : option string :=
  option_map draft_content (find (fun r => Nat.eqb r.(r_id) rid) rs).

(** [reject_reply] *)
Definition reject_reply (rs : list reply) (rid uid : nat) : outcome reply * list reply :=
  match find_pending rs rid uid with
  | None => (Raise ValueError, rs)
  | Some r => (Ok (set_status Rejected false r), update rid (set_status Rejected false) rs)
  end.

(** The [subject] of the [OutgoingMessage] built by [_send_reply] from
    the original message's subject. *)
Definition reply_subject (subj : option string) : option string :=
  match subj with
  | None => None
  | Some s =>
      if String.eqb s EmptyString then None
      else if PyStr.startswith "Re:" s then Some s
      else Some ("Re: " ++ s)
  end.

End Reply.

(** ** Reply suggestions ([app/ai/chains/smart_reply.py]) *)
Module Suggest.
Import PyStr PyFloat.
Local Open Scope nat_scope.

Definition lit_0_7 : Q := 3152519739159347 # 4503599627370496.
Definition lit_0_8 : Q := 3602879701896397 # 4503599627370496.

(** [{"text": ..., "type": ..., "confidence": ...}] *)
Record suggestion : Type := {
  text : string;
  type : string;
  confidence : pyfloat
}.

(** One line of the model output, as in the loop of
    [generate_smart_replies].  For a [reply_content] that starts with
    "[" and contains "]", [split1 "]"] gives [reply_content[:type_end]]
    and [reply_content[type_end + 1:]]. *)
Definition reply_line (raw : string) : list suggestion :=
  let line := strip raw in
  if startswith "REPLY_" line then
    match split1 ":"%char line with
    | Some (_, rest) =>
        let content0 := strip rest in
        let '(reply_type, reply_content) :=
          if startswith "[" content0 && contains "]" content0 then
            match split1 "]"%char content0 with
            | Some (a, b) => (lower (Chains.drop 1 a), strip b)
            | None => ("general", content0)
            end
          else ("general", content0) in
        let conf :=
          if mem_str reply_type ["acknowledgment"; "thanks"] then Fin lit_0_9
          else if Nat.ltb (length reply_content) 20 then Fin lit_0_7
          else Fin lit_0_8 in
        [{| text := reply_content; type := reply_type; confidence := conf |}]
    | None => []
    end
  else [].

Definition fallback_replies : list suggestion :=
  [{| text := "Thank you for your message."; type := "acknowledgment";
      confidence := Fin lit_0_6 |};
   {| text := "I'll get back to you soon."; type := "defer"; confidence := Fin lit_0_6 |};
   {| text := "Thanks for reaching out!"; type := "thanks"; confidence := Fin lit_0_6 |}].

(** [generate_smart_replies] after the model call *)
Definition smart_replies_parse (out : string) : list suggestion :=
  let replies := flat_map reply_line (split "010"%char (strip out)) in
  let replies := match replies with [] => fallback_replies | _ => replies end in
  firstn 3 replies.

(** What [_generate_reply_suggestions] stores: the texts, one row each. *)
Definition suggestion_texts (out : string) : list string :=
  map text (smart_replies_parse out).

End Suggest.

(** ** Reading a stored analysis back ([AIService.get_message_analysis]) *)
Module Lookup.
Import PyStr PyFloat Analyzer Service.

Section WithOrder.
(** [datetime.isoformat] of a stored deadline *)
Variable isoformat : string -> string.
(** The order in which the database returns the rows of a query
    without [ORDER BY]. *)
Variable order : list actionable_item -> list actionable_item.

(** the loop over the actionable items *)
Fixpoint collect (rows : list actionable_item) : list task * list deadline :=
  match rows with
  | [] => ([], [])
  | item :: rest =>
      let (ts, ds) := collect rest in
      if mem_str item.(ai_type) ["task"; "meeting"] then
        ({| task_type := item.(ai_type); task_description := item.(ai_description);
            task_deadline := option_map isoformat item.(ai_deadline) |} :: ts, ds)
      else if String.eqb item.(ai_type) "deadline" then
        (ts, {| dl_description := item.(ai_description);
                dl_date := option_map isoformat item.(ai_deadline) |} :: ds)
      else (ts, ds)
  end.

(** [get_message_analysis]: the first stored analysis row of the
    message, its actionable items, and the [MessageAnalysisSchema]
    built from them (the spam attributes are not passed, so they take
    the schema's defaults). *)
Definition get_message_analysis (w : world) (message_id : string)
  : outcome (option schema) :=
  match find (fun a => String.eqb a.(ar_message_id) message_id) w.(analyses) with
  | None => Ok None
  | Some analysis =>
      let actionables :=
        order (filter (fun i => String.eqb i.(ai_message_id) message_id) w.(items)) in
      let (ts, ds) := collect actionables in
      if in_unit_b analysis.(ar_priority_score) then
        Ok (Some {| s_message_id := analysis.(ar_message_id);
                    s_summary := analysis.(ar_summary);
                    s_intent := analysis.(ar_intent);
                    s_priority_score := analysis.(ar_priority_score);
                    s_is_spam := false; s_spam_score := Fin 0; s_spam_type := "none";
                    s_unsubscribe_link := None;
                    s_tasks := ts; s_deadlines := ds |})
      else Raise ValidationError
  end.

End WithOrder.

End Lookup.

(** * Properties *)

(** ** Floats in [0, 1] *)
Module Bounds.
Import PyFloat Chains Analyzer.

Lemma lit_0_5_unit : in_unit (Fin lit_0_5).
Proof. cbn. unfold lit_0_5, Qle; cbn; lia. Qed.

Lemma zero_unit : in_unit (Fin 0).
Proof. cbn. unfold Qle; cbn; lia. Qed.

Lemma clamp01_in_unit (x : pyfloat) : in_unit (clamp01 x).
Proof.
  destruct x as [q| | |]; unfold clamp01, min, max, lt; cbn.
  - destruct (Qle_bool 1 q) eqn:H1; cbn.
    + unfold Qle; cbn; lia.
    + destruct (Qle_bool q 0) eqn:H0; cbn.
      * unfold Qle; cbn; lia.
      * apply Bool.not_true_iff_false in H1, H0.
        rewrite Qle_bool_iff in H1, H0.
        apply Qnot_le_lt in H1, H0.
        split; apply Qlt_le_weak; assumption.
  - unfold Qle; cbn; lia.
  - unfold Qle; cbn; lia.
  - unfold Qle; cbn; lia.
Qed.

Lemma priority_parse_unit (pf : string -> option pyfloat) (out : string) :
  in_unit (priority_parse pf out).
Proof.
  unfold priority_parse. destruct (pf (PyStr.strip out)).
  - apply clamp01_in_unit.
  - apply lit_0_5_unit.
Qed.

Lemma spam_line_unit (pf : string -> option pyfloat) (st : spam_fields) (l : string) :
  in_unit (sf_spam_score st) -> in_unit (sf_spam_score (spam_line pf st l)).
Proof.
  intro H. unfold spam_line.
  destruct (PyStr.startswith "IS_SPAM:" (PyStr.strip l)); [exact H|].
  destruct (PyStr.startswith "SPAM_SCORE:" (PyStr.strip l)).
  - cbn [sf_spam_score]. destruct (pf (PyStr.strip (after_colon (PyStr.strip l)))); [apply clamp01_in_unit|].
    destruct (sf_is_spam st); [apply lit_0_5_unit | apply zero_unit].
  - destruct (PyStr.startswith "SPAM_TYPE:" (PyStr.strip l)); [exact H|].
    destruct (PyStr.startswith "REASON:" (PyStr.strip l)); exact H.
Qed.

Lemma spam_parse_unit (pf : string -> option pyfloat) (out : string) :
  in_unit (sf_spam_score (spam_parse pf out)).
Proof.
  unfold spam_parse.
  assert (Hgen : forall ls st, in_unit (sf_spam_score st) ->
                 in_unit (sf_spam_score (fold_left (spam_line pf) ls st))).
  { induction ls as [|l ls IH]; intros st Hst; cbn; [exact Hst|].
    apply IH, spam_line_unit, Hst. }
  apply Hgen, zero_unit.
Qed.

Lemma analyze_unit (pf : string -> option pyfloat) (m : message) (o : llm_outputs)
    (r : result) :
  analyze pf m o = Ok r -> in_unit (priority_score r) /\ in_unit (r_spam_score r).
Proof.
  unfold analyze. intro H. injection H as <-. cbn. split.
  - destruct (out_priority o); cbn; [apply priority_parse_unit | apply lit_0_5_unit].
  - destruct (out_spam o); cbn; [apply spam_parse_unit | apply zero_unit].
Qed.

Lemma fallback_priority_unit (m : message) : in_unit (Fallback.calculate_priority m).
Proof.
  unfold Fallback.calculate_priority.
  repeat match goal with |- context [if ?b then _ else _] => destruct b end;
    cbn; unfold Qle; cbn; lia.
Qed.

End Bounds.

(** Concrete inputs used by the examples below. *)
Module Inputs.

Definition nl : string := String "010"%char EmptyString.

Definition msg (snd subj body : string) : message :=
  {| msg_id := "m1"; msg_user_id := "u1"; platform := "gmail"; sender := snd;
     subject := if String.eqb subj EmptyString then None else Some subj;
     content := body; meta_list_unsubscribe := None |}.

Definition all_ok (spam_out : string) : Analyzer.llm_outputs :=
  {| Analyzer.out_summary := Ok "Weekly offers";
     Analyzer.out_intent := Ok "notification";
     Analyzer.out_priority := Ok "0.2";
     Analyzer.out_tasks := Ok "NO_TASKS";
     Analyzer.out_deadlines := Ok "NO_DEADLINES";
     Analyzer.out_spam := Ok spam_out |}.

Definition all_fail (e : exc) : Analyzer.llm_outputs :=
  {| Analyzer.out_summary := Raise e; Analyzer.out_intent := Raise e;
     Analyzer.out_priority := Raise e; Analyzer.out_tasks := Raise e;
     Analyzer.out_deadlines := Raise e; Analyzer.out_spam := Raise e |}.

Definition empty_world : Service.world :=
  {| Service.analyses := []; Service.items := []; Service.suggestions := [];
     Service.points := [] |}.

End Inputs.

Module Scores.
Import PyStr PyFloat Chains Analyzer Bounds Inputs.

Lemma score_line_not_flag (x : string) :
  startswith "SPAM_SCORE:" x = true -> startswith "IS_SPAM:" x = false.
Proof.
  destruct x as [|c x]; cbn [startswith]; [discriminate|].
  intro H. apply andb_prop in H as [Hc _].
  apply Ascii.eqb_eq in Hc. subst c. reflexivity.
Qed.

(** C3 (as amended): every result of the orchestrator, and every priority
    of the rule-based fallback, has its priority score and spam score in
    [0, 1]; an unparsable priority becomes 0.5; an unparsable SPAM_SCORE
    line becomes 0.5 when the IS_SPAM flag parsed from the earlier lines
    is true and 0.0 otherwise, whatever later lines say. *)
Theorem scores_in_unit_interval (pf : string -> option pyfloat) (m : message)
    (o : llm_outputs) :
  (forall r, analyze pf m o = Ok r ->
     in_unit (priority_score r) /\ in_unit (r_spam_score r)) /\
  in_unit (Fallback.calculate_priority m) /\
  (forall out, pf (strip out) = None -> priority_parse pf out = Fin lit_0_5) /\
  (forall st l, startswith "SPAM_SCORE:" (strip l) = true ->
     pf (strip (after_colon (strip l))) = None ->
     sf_spam_score (spam_line pf st l)
     = if sf_is_spam st then Fin lit_0_5 else Fin 0).
Proof.
  split; [intros r; apply analyze_unit|].
  split; [apply fallback_priority_unit|].
  split.
  - intros out H. unfold priority_parse. rewrite H. reflexivity.
  - intros st l Hs Hp. unfold spam_line.
    rewrite (score_line_not_flag _ Hs), Hs. cbn [sf_spam_score]. rewrite Hp.
    reflexivity.
Qed.

Lemma scores_in_unit_interval_witness :
  (exists r, analyze float_of_string (msg "a@b.c" EmptyString "hi") (all_ok "x") = Ok r
             /\ in_unit (priority_score r) /\ in_unit (r_spam_score r)) /\
  priority_parse float_of_string "abc" = Fin lit_0_5 /\
  sf_spam_score (spam_line float_of_string spam_init "SPAM_SCORE: abc") = Fin 0.
Proof.
  destruct (scores_in_unit_interval float_of_string (msg "a@b.c" EmptyString "hi")
              (all_ok "x")) as (H1 & _ & H3 & H4).
  split; [|split].
  - eexists. split; [vm_compute; reflexivity|].
    apply H1. vm_compute. reflexivity.
  - apply H3. vm_compute. reflexivity.
  - apply (H4 spam_init "SPAM_SCORE: abc"); vm_compute; reflexivity.
Defined.

(** C3 counterexample: the model writes its SPAM_SCORE line, unparsable,
    before the IS_SPAM line; the result is flagged as spam but its spam
    confidence is 0.0, not 0.5. *)
Lemma spam_default_follows_line_order :
  analyze float_of_string (msg "a@b.c" EmptyString "hi")
          (all_ok ("SPAM_SCORE: abc" ++ nl ++ "IS_SPAM: true"))
  = Ok {| summary := "Weekly offers"; intent := "notification";
          priority_score := Fin (2 # 10)%Q; tasks := []; deadlines := [];
          r_is_spam := true; r_spam_score := Fin 0; r_spam_type := "none";
          r_unsubscribe_link := None |}.
Proof. vm_compute. reflexivity. Qed.

End Scores.

(** ** Failure isolation of the orchestrator and of the service *)
Module Isolation.
Import PyStr PyFloat Chains Analyzer Service Bounds Inputs.

Lemma in_unit_b_true (x : pyfloat) : in_unit x -> in_unit_b x = true.
Proof.
  destruct x as [q| | |]; cbn; try contradiction.
  intros [H0 H1]. apply Qle_bool_iff in H0, H1. rewrite H0, H1. reflexivity.
Qed.

Definition default_result : result :=
  {| summary := "Error generating summary"; intent := "other";
     priority_score := Fin lit_0_5; tasks := []; deadlines := [];
     r_is_spam := false; r_spam_score := Fin 0; r_spam_type := "none";
     r_unsubscribe_link := None |}.

Definition failing (e1 e2 e3 e4 e5 e6 : exc) : llm_outputs :=
  {| out_summary := Raise e1; out_intent := Raise e2; out_priority := Raise e3;
     out_tasks := Raise e4; out_deadlines := Raise e5; out_spam := Raise e6 |}.

Lemma analyze_all_failing (pf : string -> option pyfloat) (m : message)
    (e1 e2 e3 e4 e5 e6 : exc) :
  analyze pf m (failing e1 e2 e3 e4 e5 e6) = Ok default_result.
Proof. reflexivity. Qed.

(** C1 (as amended): [analyze] returns a result for every combination of
    runner outcomes; each failing runner only replaces its own field(s)
    by the documented default, a succeeding runner's field is its parsed
    output, and the service then uses that result: the rule-based
    fallback is never reached through runner failures, not even when
    every runner raises the initialization error. *)
Theorem analyze_isolates_runner_failures (pf : string -> option pyfloat) (m : message)
    (o : llm_outputs) :
  exists r, analyze pf m o = Ok r /\
    chosen_result m (analyze pf m o) = r /\
    summary r = match out_summary o with
                | Ok t => summarize_parse t
                | Raise _ => "Error generating summary" end /\
    intent r = match out_intent o with
               | Ok t => classify_parse t
               | Raise _ => "other" end /\
    priority_score r = match out_priority o with
                       | Ok t => priority_parse pf t
                       | Raise _ => Fin lit_0_5 end /\
    (forall e, out_tasks o = Raise e -> tasks r = []) /\
    (forall t, out_tasks o = Ok t ->
       tasks r = map (fun '(ty, d) => {| task_type := ty; task_description := d;
                                         task_deadline := None |})
                     (tasks_parse t)) /\
    (forall e, out_deadlines o = Raise e -> deadlines r = []) /\
    (forall t, out_deadlines o = Ok t ->
       deadlines r = map (fun '(d, dt) => {| dl_description := d; dl_date := dt |})
                         (deadlines_parse t)) /\
    (forall e, out_spam o = Raise e ->
       r_is_spam r = false /\ r_spam_score r = Fin 0 /\ r_spam_type r = "none"
       /\ r_unsubscribe_link r = None) /\
    (forall t, out_spam o = Ok t ->
       let s := detect_spam_parse pf m.(content) m.(meta_list_unsubscribe) t in
       r_is_spam r = is_spam s /\ r_spam_score r = spam_score s /\
       r_spam_type r = spam_type s /\ r_unsubscribe_link r = unsubscribe_link s).
Proof.
  eexists. split; [reflexivity|]. split; [reflexivity|].
  cbn [summary intent priority_score tasks deadlines r_is_spam r_spam_score
       r_spam_type r_unsubscribe_link].
  split; [destruct (out_summary o); reflexivity|].
  split; [destruct (out_intent o); reflexivity|].
  split; [destruct (out_priority o); reflexivity|].
  split; [intros e H; rewrite H; reflexivity|].
  split; [intros t H; rewrite H; reflexivity|].
  split; [intros e H; rewrite H; reflexivity|].
  split; [intros t H; rewrite H; reflexivity|].
  split; [intros e H; rewrite H; repeat split|].
  intros t H; rewrite H; repeat split.
Qed.

Lemma analyze_isolates_runner_failures_witness :
  exists r, analyze float_of_string (msg "a@b.c" EmptyString "hi")
              (failing InitError InitError InitError InitError InitError InitError) = Ok r /\
    summary r = "Error generating summary" /\ intent r = "other" /\
    priority_score r = Fin lit_0_5 /\ tasks r = [] /\ deadlines r = [] /\
    r_is_spam r = false /\ r_spam_score r = Fin 0 /\ r_spam_type r = "none".
Proof.
  destruct (analyze_isolates_runner_failures float_of_string (msg "a@b.c" EmptyString "hi")
              (failing InitError InitError InitError InitError InitError InitError))
    as (r & Hr & _ & Hs & Hi & Hp & Ht & _ & Hd & _ & Hsp & _).
  exists r. split; [exact Hr|].
  destruct (Hsp InitError eq_refl) as (Hs1 & Hs2 & Hs3 & _).
  split; [exact Hs|]. split; [exact Hi|]. split; [exact Hp|].
  split; [exact (Ht InitError eq_refl)|]. split; [exact (Hd InitError eq_refl)|].
  split; [exact Hs1|]. split; [exact Hs2|]. exact Hs3.
Defined.

(** C1 counterexample: every runner's client raises the initialization
    error (no API key); [analyze] does not fail, so the service keeps
    the all-defaults result instead of the rule-based one. *)
Lemma all_init_errors_do_not_fail_analyze :
  analyze float_of_string (msg "bob@example.com" EmptyString "Please review the draft today.")
          (failing InitError InitError InitError InitError InitError InitError)
  = Ok default_result /\
  chosen_result (msg "bob@example.com" EmptyString "Please review the draft today.")
    (analyze float_of_string (msg "bob@example.com" EmptyString "Please review the draft today.")
             (failing InitError InitError InitError InitError InitError InitError))
  <> Fallback.analyze (msg "bob@example.com" EmptyString "Please review the draft today.").
Proof.
  split; [reflexivity|]. vm_compute. intro H. discriminate H.
Qed.

End Isolation.

Module FallbackPath.
Import PyStr PyFloat Chains Analyzer Service Bounds Inputs Isolation.

Definition default_schema (m : message) : schema :=
  {| s_message_id := m.(msg_id); s_summary := "Error generating summary";
     s_intent := "other"; s_priority_score := Fin lit_0_5; s_is_spam := false;
     s_spam_score := Fin 0; s_spam_type := "none"; s_unsubscribe_link := None;
     s_tasks := []; s_deadlines := [] |}.

Lemma default_schema_valid (m : message) :
  mk_schema m default_result = Ok (default_schema m).
Proof. reflexivity. Qed.

Lemma fallback_schema (m : message) :
  mk_schema m (Fallback.analyze m)
  = Ok {| s_message_id := m.(msg_id); s_summary := Fallback.generate_summary m;
          s_intent := Fallback.classify_intent m;
          s_priority_score := Fallback.calculate_priority m;
          s_is_spam := false; s_spam_score := Fin 0; s_spam_type := "none";
          s_unsubscribe_link := None;
          s_tasks := tasks (Fallback.analyze m);
          s_deadlines := deadlines (Fallback.analyze m) |}.
Proof.
  unfold mk_schema. cbn [priority_score r_spam_score Fallback.analyze].
  rewrite (in_unit_b_true _ (fallback_priority_unit m)).
  reflexivity.
Qed.

(** The dict returned by [BasicTextProcessor.analyze]: the rule-based
    fields and ["fallback_used": True]. *)
Record processor_output : Type := {
  po_fields : result;
  fallback_used : bool
}.

Definition basic_analyze (m : message) : processor_output :=
  {| po_fields := Fallback.analyze m; fallback_used := true |}.

(** [FallbackResult(data)] copies [summary], [intent], [priority_score],
    [tasks] and [deadlines]; it never reads [data["fallback_used"]]. *)
Definition FallbackResult (d : processor_output) : result := po_fields d.

Lemma chosen_result_fallback (m : message) (e : exc) :
  chosen_result m (Raise e) = FallbackResult (basic_analyze m).
Proof. reflexivity. Qed.

(** C2 (code bug): [analyze_message] never raises through analysis
    failures: when every task fails it returns the orchestrator's
    per-field defaults, and when [analyze] raises it returns the
    rule-based fields.  The rule-based processor flags its output with
    [fallback_used = true], but [FallbackResult] drops the flag: on the
    fallback path the call returns and stores exactly what a successful
    analysis with the same fields would, so nothing tags the result as
    degraded. *)
Theorem analyze_message_survives_task_failures (pf : string -> option pyfloat)
    (fromiso : string -> option string) (m : message) (e1 e2 e3 e4 e5 e6 : exc)
    (sugg : outcome (list string)) (emb : outcome unit) (w : world) :
  ret (analyze_message fromiso m (analyze pf m (failing e1 e2 e3 e4 e5 e6))
         (Ok tt) sugg emb w) = Ok (default_schema m) /\
  (forall e, exists s,
     ret (analyze_message fromiso m (Raise e) (Ok tt) sugg emb w) = Ok s /\
     s_summary s = Fallback.generate_summary m /\
     s_intent s = Fallback.classify_intent m /\
     s_priority_score s = Fallback.calculate_priority m) /\
  fallback_used (basic_analyze m) = true /\
  (forall e (commit : outcome unit),
     analyze_message fromiso m (Raise e) commit sugg emb w
     = analyze_message fromiso m (Ok (FallbackResult (basic_analyze m))) commit sugg emb w).
Proof.
  split; [rewrite analyze_all_failing; reflexivity|].
  split.
  - intro e. cbn [analyze_message ret chosen_result].
    rewrite fallback_schema. eexists. repeat split.
  - split; [reflexivity|].
    intros e commit. unfold analyze_message. rewrite chosen_result_fallback. reflexivity.
Qed.

(** When every task fails, the orchestrator defaults are returned
    although the rule-based processor would have summarized the message
    from its content. *)
Lemma all_tasks_failing_skip_rule_based :
  ret (analyze_message (fun _ => None) (msg "bob@example.com" EmptyString "Please review the draft today.")
         (analyze float_of_string (msg "bob@example.com" EmptyString "Please review the draft today.")
            (failing ModelError ModelError ModelError ModelError ModelError ModelError))
         (Ok tt) (Ok []) (Ok tt) empty_world)
  = Ok (default_schema (msg "bob@example.com" EmptyString "Please review the draft today.")) /\
  Fallback.generate_summary (msg "bob@example.com" EmptyString "Please review the draft today.")
  = "Please review the draft today." /\
  Fallback.classify_intent (msg "bob@example.com" EmptyString "Please review the draft today.")
  = "task_request".
Proof. vm_compute. repeat split. Qed.

End FallbackPath.

(** ** The reply-suggestion gate of [analyze_message] *)
Module ReplyGate.
Import PyStr PyFloat Chains Analyzer Service Inputs Isolation.

Definition result_with (spam : bool) (p : Q) : result :=
  {| summary := "s"; intent := "request"; priority_score := Fin p; tasks := [];
     deadlines := []; r_is_spam := spam; r_spam_score := Fin 0; r_spam_type := "none";
     r_unsubscribe_link := None |}.

Lemma suggested_is_gate (fromiso : string -> option string) (m : message)
    (analyzed : outcome result) (sugg : outcome (list string)) (emb : outcome unit)
    (w : world) :
  suggested (analyze_message fromiso m analyzed (Ok tt) sugg emb w)
  = should_generate_replies (chosen_result m analyzed) m.(sender).
Proof. reflexivity. Qed.

(** C4 (as amended): suggestion generation is called exactly when the
    result is not spam, its priority exceeds 0.3 (the binary64 literal),
    the sender is non-empty and the lower-cased sender contains none of
    the ten no-reply patterns; a failure of the generation leaves the
    returned analysis and every store as if it had returned nothing. *)
Theorem reply_trigger_gate (fromiso : string -> option string) (m : message)
    (analyzed : outcome result) (sugg : outcome (list string)) (emb : outcome unit)
    (w : world) :
  suggested (analyze_message fromiso m analyzed (Ok tt) sugg emb w)
  = negb (r_is_spam (chosen_result m analyzed))
    && lt reply_threshold (priority_score (chosen_result m analyzed))
    && negb (String.eqb m.(sender) EmptyString)
    && negb (existsb (fun p => contains p (lower m.(sender))) no_reply_patterns) /\
  (forall e,
     ret (analyze_message fromiso m analyzed (Ok tt) (Raise e) emb w)
     = ret (analyze_message fromiso m analyzed (Ok tt) (Ok []) emb w) /\
     after (analyze_message fromiso m analyzed (Ok tt) (Raise e) emb w)
     = after (analyze_message fromiso m analyzed (Ok tt) (Ok []) emb w)).
Proof.
  split.
  - rewrite suggested_is_gate. unfold should_generate_replies, is_replyable_sender.
    destruct (negb _), (lt _ _), (String.eqb _ _); reflexivity.
  - intro e. split; [reflexivity|].
    unfold analyze_message.
    destruct (should_generate_replies _ _); cbn; [rewrite app_nil_r|]; reflexivity.
Qed.

(** C4 counterexample: an empty sender contains no no-reply pattern and
    the result is not spam with priority 0.9, yet no suggestion is
    generated. *)
Lemma empty_sender_blocks_suggestions :
  negb (r_is_spam (result_with false lit_0_9)) = true /\
  lt reply_threshold (Fin lit_0_9) = true /\
  existsb (fun p => contains p (lower EmptyString)) no_reply_patterns = false /\
  suggested (analyze_message (fun _ => None) (msg EmptyString EmptyString "Can we meet?")
               (Ok (result_with false lit_0_9)) (Ok tt) (Ok ["Sure"]) (Ok tt) empty_world)
  = false.
Proof. vm_compute. repeat split. Qed.

(** C10: an empty sender is never replyable, so [analyze_message] never
    calls the suggestion generation for it, whatever the analysis. *)
Theorem empty_sender_never_suggested (fromiso : string -> option string) (m : message)
    (analyzed : outcome result) (commit : outcome unit) (sugg : outcome (list string))
    (emb : outcome unit) (w : world) :
  m.(sender) = EmptyString ->
  is_replyable_sender m.(sender) = false /\
  suggested (analyze_message fromiso m analyzed commit sugg emb w) = false.
Proof.
  intro H. unfold is_replyable_sender. rewrite H. split; [reflexivity|].
  destruct commit as [[]|e]; [|reflexivity].
  rewrite suggested_is_gate. unfold should_generate_replies, is_replyable_sender.
  rewrite H. cbn. apply andb_false_r.
Qed.

Lemma empty_sender_never_suggested_witness :
  is_replyable_sender EmptyString = false /\
  suggested (analyze_message (fun _ => None) (msg EmptyString EmptyString "Can we meet?")
               (Ok (result_with false lit_0_9)) (Ok tt) (Ok ["Sure"]) (Ok tt) empty_world)
  = false.
Proof.
  apply (empty_sender_never_suggested (fun _ => None) (msg EmptyString EmptyString "Can we meet?")
           (Ok (result_with false lit_0_9)) (Ok tt) (Ok ["Sure"]) (Ok tt) empty_world).
  reflexivity.
Defined.

(** The three scenarios of the specification. *)
Example gate_noreply_sender :
  should_generate_replies (result_with false lit_0_9) "noreply@service.com" = false.
Proof. vm_compute. reflexivity. Qed.

Example gate_priority_0_31 :
  should_generate_replies (result_with false (31 # 100)) "alice@example.com" = true.
Proof. vm_compute. reflexivity. Qed.

Example gate_spam :
  should_generate_replies (result_with true lit_0_9) "alice@example.com" = false.
Proof. vm_compute. reflexivity. Qed.

End ReplyGate.

(** ** Reply review transitions *)
Module ReplyReview.
Import Reply.
Local Open Scope nat_scope.

Lemma find_pending_spec (rs : list reply) (rid uid : nat) (r : reply) :
  find_pending rs rid uid = Some r ->
  In r rs /\ r.(r_id) = rid /\ r.(r_status) = Pending.
Proof.
  unfold find_pending. intro H.
  pose proof (find_some _ _ H) as [Hin Hp].
  apply andb_prop in Hp as [Hp Hs]. apply andb_prop in Hp as [Hi _].
  apply Nat.eqb_eq in Hi.
  split; [exact Hin|]. split; [exact Hi|].
  destruct (r_status r); try discriminate; reflexivity.
Qed.

Lemma find_update (rid : nat) (f : reply -> reply) (rs : list reply) :
  (forall x, (f x).(r_id) = x.(r_id)) ->
  find (fun x => Nat.eqb x.(r_id) rid) (update rid f rs)
  = option_map f (find (fun x => Nat.eqb x.(r_id) rid) rs).
Proof.
  intro Hf. induction rs as [|x rs IH]; [reflexivity|]. cbn.
  destruct (Nat.eqb (r_id x) rid) eqn:E.
  - rewrite Hf, E. reflexivity.
  - rewrite E. exact IH.
Qed.

Lemma find_by_key (rs : list reply) (r : reply) :
  NoDup (map r_id rs) -> In r rs ->
  find (fun x => Nat.eqb x.(r_id) r.(r_id)) rs = Some r.
Proof.
  induction rs as [|x rs IH]; intros Hu Hin; [contradiction|].
  inversion Hu as [|? ? Hx Hu']; subst. cbn.
  destruct Hin as [<- | Hin].
  - rewrite Nat.eqb_refl. reflexivity.
  - destruct (Nat.eqb (r_id x) (r_id r)) eqn:E.
    + apply Nat.eqb_eq in E. exfalso. apply Hx. rewrite E. apply in_map, Hin.
    + apply IH; assumption.
Qed.

Lemma lookup_pending (rs : list reply) (rid uid : nat) (r : reply) :
  NoDup (map r_id rs) -> find_pending rs rid uid = Some r ->
  find (fun x => Nat.eqb x.(r_id) rid) rs = Some r.
Proof.
  intros Hu Hp. destruct (find_pending_spec _ _ _ _ Hp) as (Hin & <- & _).
  apply find_by_key; assumption.
Qed.

(** C5: editing a pending reply replaces its content and leaves it
    pending; approving a pending reply whose send fails raises to the
    caller and leaves the row [approved] with its draft unchanged. *)
Theorem edit_and_failed_approve (rs : list reply) (messages : list nat)
    (rid uid : nat) (r : reply) (new_content : string) (e : exc) (record : outcome unit) :
  NoDup (map r_id rs) ->
  find_pending rs rid uid = Some r ->
  (exists r', fst (edit_reply rs rid uid new_content) = Ok r' /\
              r'.(r_status) = Pending /\ r'.(draft_content) = new_content) /\
  status_of (snd (edit_reply rs rid uid new_content)) rid = Some Pending /\
  content_of (snd (edit_reply rs rid uid new_content)) rid = Some new_content /\
  (existsb (Nat.eqb r.(r_message_id)) messages = true ->
   fst (approve_reply rs messages rid uid (Raise e) record) = Raise SendFailed /\
   status_of (snd (approve_reply rs messages rid uid (Raise e) record)) rid = Some Approved /\
   content_of (snd (approve_reply rs messages rid uid (Raise e) record)) rid
     = Some r.(draft_content)).
Proof.
  intros Hu Hp.
  pose proof (find_pending_spec _ _ _ _ Hp) as (_ & _ & Hst).
  pose proof (lookup_pending _ _ _ _ Hu Hp) as Hf.
  unfold edit_reply, approve_reply, status_of, content_of. rewrite Hp. cbn [fst snd].
  split; [eexists; split; [reflexivity|]; split; [exact Hst|reflexivity]|].
  rewrite find_update by reflexivity. rewrite Hf. cbn.
  split; [rewrite Hst; reflexivity|]. split; [reflexivity|].
  intro Hm. rewrite Hm. cbn [negb fst snd].
  rewrite find_update by reflexivity. rewrite Hf. cbn.
  split; [reflexivity|]. split; reflexivity.
Qed.

Definition sample : list reply :=
  [{| r_id := 1; r_user_id := 7; r_message_id := 3; draft_content := "Thanks!";
      r_status := Pending; reviewed := false; sent_stamp := false |};
   {| r_id := 2; r_user_id := 7; r_message_id := 3; draft_content := "Noted";
      r_status := Suggestion; reviewed := false; sent_stamp := false |}].

Lemma edit_and_failed_approve_witness :
  status_of (snd (edit_reply sample 1 7 "Thanks, will do")) 1 = Some Pending /\
  status_of (snd (approve_reply sample [3] 1 7 (Raise StoreError) (Ok tt))) 1 = Some Approved.
Proof.
  destruct (edit_and_failed_approve sample [3] 1 7 (hd (Build_reply 0 0 0 EmptyString Pending false false) sample)
              "Thanks, will do" StoreError (Ok tt))
    as (_ & H1 & _ & H2).
  - vm_compute. repeat constructor; cbn; intuition discriminate.
  - vm_compute. reflexivity.
  - split; [exact H1|]. apply H2. vm_compute. reflexivity.
Defined.

End ReplyReview.

(** ** Deletion and re-analysis *)
Module Stores.
Import Service Analyzer Inputs.

(** C6 (code bug): when the relational deletes succeed and the Qdrant
    client raises, [delete_message_data] reports success although the
    embedding is still stored; [delete_user_data] reports success while
    leaving every [MessageAnalysis] row in place. *)
Theorem deletion_reports_partial_success (mid uid : string) (e : exc) (w : world) :
  fst (delete_message_data (Ok tt) (Raise e) mid w) = true /\
  points (snd (delete_message_data (Ok tt) (Raise e) mid w)) = points w /\
  fst (delete_user_data (Ok tt) (Ok tt) uid w) = true /\
  analyses (snd (delete_user_data (Ok tt) (Ok tt) uid w)) = analyses w.
Proof. repeat split. Qed.

Lemma after_analyses (fromiso : string -> option string) (m : message)
    (a : outcome result) (s : outcome (list string)) (e : outcome unit) (w : world) :
  analyses (after (analyze_message fromiso m a (Ok tt) s e w))
  = (analyses w ++ [analysis_row_of m (chosen_result m a)])%list /\
  items (after (analyze_message fromiso m a (Ok tt) s e w))
  = (items w ++ items_of fromiso m (chosen_result m a))%list.
Proof.
  unfold analyze_message.
  destruct (should_generate_replies _ _), s, e as [[]|]; split; reflexivity.
Qed.

Lemma filter_all {A : Type} (p : A -> bool) (l : list A) :
  (forall x, In x l -> p x = true) -> filter p l = l.
Proof.
  induction l as [|x l IH]; intro H; [reflexivity|]. cbn.
  rewrite (H x (or_introl eq_refl)). f_equal. apply IH. intros y Hy. apply H. right. exact Hy.
Qed.

Lemma filter_none {A : Type} (p : A -> bool) (l : list A) :
  filter p (filter (fun x => negb (p x)) l) = [].
Proof.
  induction l as [|x l IH]; [reflexivity|]. cbn.
  destruct (p x) eqn:E; cbn; [exact IH|]. rewrite E. exact IH.
Qed.

Lemma items_of_owned (fromiso : string -> option string) (m : message) (r : result) :
  forall i, In i (items_of fromiso m r) -> ai_message_id i = msg_id m.
Proof.
  intros i Hi. unfold items_of in Hi. apply in_app_or in Hi as [Hi|Hi];
    apply in_map_iff in Hi as (x & <- & _); reflexivity.
Qed.

(** C7: re-analysing a message twice leaves exactly one analysis row for
    it, the one of the second run, and exactly the actionable items of
    the second run, whatever the first run or the earlier state left. *)
Theorem reanalyze_twice (fromiso : string -> option string) (m : message)
    (a1 a2 : outcome result) (c1 : outcome unit) (s1 s2 : outcome (list string))
    (e1 e2 : outcome unit) (w : world) :
  let w1 := after (reanalyze_message fromiso m a1 c1 s1 e1 w) in
  let w2 := after (reanalyze_message fromiso m a2 (Ok tt) s2 e2 w1) in
  filter (fun a => String.eqb a.(ar_message_id) m.(msg_id)) (analyses w2)
    = [analysis_row_of m (chosen_result m a2)] /\
  filter (fun i => String.eqb i.(ai_message_id) m.(msg_id)) (items w2)
    = items_of fromiso m (chosen_result m a2).
Proof.
  cbv zeta. generalize (after (reanalyze_message fromiso m a1 c1 s1 e1 w)). intro w1.
  unfold reanalyze_message.
  destruct (after_analyses fromiso m a2 s2 e2
              {| analyses := filter (fun a => negb (String.eqb (ar_message_id a) (msg_id m)))
                               (analyses w1);
                 items := filter (fun i => negb (String.eqb (ai_message_id i) (msg_id m)))
                            (items w1);
                 suggestions := suggestions w1; points := points w1 |})
    as [Ha Hi].
  rewrite Ha, Hi. cbn [analyses items].
  split; rewrite filter_app, filter_none; cbn [app].
  - cbn. rewrite String.eqb_refl. reflexivity.
  - apply filter_all. intros i Hin. rewrite (items_of_owned _ _ _ _ Hin).
    apply String.eqb_refl.
Qed.

End Stores.

(** ** Unsubscribe links and the task/deadline grammar *)
Module Parsing.
Import PyStr PyFloat Chains Inputs.
Local Open Scope nat_scope.

Definition anchor_content : string :=
  "Big sale! <a href=" ++ String "034"%char "https://x.com/unsubscribe?id=1"
  ++ String "034"%char ">unsubscribe</a>".

Definition promo_verdict : string :=
  "IS_SPAM: true" ++ nl ++ "SPAM_SCORE: 0.95" ++ nl ++ "SPAM_TYPE: promotional"
  ++ nl ++ "REASON: sale".

(** C8 (as amended): the link is extracted only for spam of a
    promotional, newsletter or marketing type; a List-Unsubscribe value
    matching [<http(s)://...>] wins; otherwise the content patterns are
    tried in their fixed order (anchors with unsubscribe, opt-out,
    remove; then bare URLs with unsubscribe, opt-out) and the first
    pattern that matches gives the link.  On the specification's
    examples the anchor yields exactly its URL, and the header form wins
    over the anchor. *)
Theorem unsubscribe_extraction (pf : string -> option pyfloat) (content : string)
    (list_unsub : option string) (out : string) :
  unsubscribe_link (detect_spam_parse pf content list_unsub out)
    = (if sf_is_spam (spam_parse pf out)
          && mem_str (sf_spam_type (spam_parse pf out)) unsubscribe_types
       then extract_unsubscribe_link content list_unsub else None) /\
  (forall hdr url, search header_at hdr = Some url ->
     extract_unsubscribe_link content (Some hdr) = Some url) /\
  (match list_unsub with Some hdr => search header_at hdr | None => None end = None ->
     extract_unsubscribe_link content list_unsub
     = first_match [anchor_at "unsubscribe"; anchor_at "opt-out"; anchor_at "remove";
                    bare_at "unsubscribe"; bare_at "opt-out"] content) /\
  unsubscribe_link (detect_spam_parse float_of_string anchor_content None promo_verdict)
    = Some "https://x.com/unsubscribe?id=1" /\
  unsubscribe_link (detect_spam_parse float_of_string anchor_content
                      (Some "<https://x.com/u>") promo_verdict)
    = Some "https://x.com/u".
Proof.
  split; [reflexivity|].
  split; [intros hdr url H; unfold extract_unsubscribe_link; rewrite H; reflexivity|].
  split; [intro H; unfold extract_unsubscribe_link; rewrite H; reflexivity|].
  split; vm_compute; reflexivity.
Qed.

Lemma unsubscribe_extraction_witness :
  extract_unsubscribe_link anchor_content (Some "<https://x.com/u>") = Some "https://x.com/u" /\
  extract_unsubscribe_link anchor_content (Some "none")
    = first_match [anchor_at "unsubscribe"; anchor_at "opt-out"; anchor_at "remove";
                   bare_at "unsubscribe"; bare_at "opt-out"] anchor_content.
Proof.
  destruct (unsubscribe_extraction float_of_string anchor_content (Some "none") promo_verdict)
    as (_ & H1 & H2 & _).
  split.
  - apply H1. vm_compute. reflexivity.
  - apply H2. vm_compute. reflexivity.
Defined.

(** C8 counterexample: promotional spam whose only opt-out link is a
    bare URL containing [remove]: no link is extracted, since only the
    anchor patterns look for [remove]. *)
Lemma bare_remove_url_not_extracted :
  unsubscribe_link (detect_spam_parse float_of_string
                      "To stop these mails visit https://x.com/remove?id=1 today" None
                      promo_verdict) = None /\
  unsubscribe_link (detect_spam_parse float_of_string
                      "To stop these mails visit https://x.com/unsubscribe?id=1 today" None
                      promo_verdict) = Some "https://x.com/unsubscribe?id=1".
Proof. vm_compute. split; reflexivity. Qed.

Lemma task_line_at_most_one (l : string) : List.length (task_line l) <= 1.
Proof.
  unfold task_line.
  destruct (String.eqb _ _); [cbn; lia|].
  destruct (split1 _ _) as [[a b]|]; [|cbn; lia].
  destruct (mem_str _ _); cbn; lia.
Qed.

Lemma deadline_line_at_most_one (l : string) : List.length (deadline_line l) <= 1.
Proof.
  unfold deadline_line.
  destruct (_ || _); [cbn; lia|].
  destruct (_ && _); [|cbn; lia].
  destruct (startswith _ _); [|cbn; lia].
  destruct (mem_str _ _); cbn; lia.
Qed.

(** C9: the sentinels and empty output give no items, each line yields
    at most one item and a malformed one none, well-formed lines are
    kept; on the specification's example the malformed middle line is
    dropped and exactly two tuples remain. *)
Theorem task_deadline_grammar :
  tasks_parse "NO_TASKS" = [] /\
  deadlines_parse "NO_DEADLINES" = [] /\
  (forall out, strip out = EmptyString -> tasks_parse out = [] /\ deadlines_parse out = []) /\
  (forall out, strip out <> "NO_TASKS" -> strip out <> EmptyString ->
     tasks_parse out = flat_map task_line (split "010"%char (strip out))) /\
  (forall out, strip out <> "NO_DEADLINES" -> strip out <> EmptyString ->
     deadlines_parse out = flat_map deadline_line (split "010"%char (strip out))) /\
  (forall l, List.length (task_line l) <= 1 /\ List.length (deadline_line l) <= 1) /\
  task_line "invalidline" = [] /\
  deadline_line "invalidline" = [] /\
  deadline_line "DEADLINE: file report | DATE: 2024-05-01"
    = [("file report", Some "2024-05-01")] /\
  tasks_parse ("task: buy milk" ++ nl ++ "invalidline" ++ nl ++ "deadline: file report")
    = [("task", "buy milk"); ("deadline", "file report")].
Proof.
  split; [reflexivity|]. split; [reflexivity|].
  split.
  { intros out H. unfold tasks_parse, deadlines_parse. rewrite H. split; reflexivity. }
  split.
  { intros out H1 H2. unfold tasks_parse.
    apply String.eqb_neq in H1, H2. rewrite H1, H2. reflexivity. }
  split.
  { intros out H1 H2. unfold deadlines_parse.
    apply String.eqb_neq in H1, H2. rewrite H1, H2. reflexivity. }
  split; [intro l; split; [apply task_line_at_most_one | apply deadline_line_at_most_one]|].
  vm_compute. repeat split.
Qed.

Lemma task_deadline_grammar_witness :
  tasks_parse ("  " ++ nl) = [] /\
  tasks_parse "meeting: sync at 3" = [("meeting", "sync at 3")].
Proof.
  destruct task_deadline_grammar as (_ & _ & H1 & H2 & _).
  split.
  - apply (H1 ("  " ++ nl)). vm_compute. reflexivity.
  - rewrite H2; [vm_compute; reflexivity | vm_compute; discriminate | vm_compute; discriminate].
Defined.

End Parsing.

(** * Further properties of the analysis, lookup and reply code *)

Module StrFacts.
Import PyStr.
Local Open Scope nat_scope.

Lemma rstrip_idem (s : string) : rstrip (rstrip s) = rstrip s.
Proof.
  induction s as [|c r IH]; [reflexivity|].
  cbn [rstrip].
  destruct (is_space c && String.eqb (rstrip r) EmptyString) eqn:E; [reflexivity|].
  cbn [rstrip]. rewrite IH, E. reflexivity.
Qed.

Lemma lstrip_head (s : string) :
  lstrip s = EmptyString \/ exists c r, lstrip s = String c r /\ is_space c = false.
Proof.
  induction s as [|c r IH]; [left; reflexivity|].
  cbn [lstrip]. destruct (is_space c) eqn:E; [exact IH|].
  right. exists c, r. auto.
Qed.

Lemma strip_idem (s : string) : strip (strip s) = strip s.
Proof.
  unfold strip.
  destruct (lstrip_head s) as [H | (c & r & H & Hc)]; rewrite H.
  - reflexivity.
  - cbn [rstrip]. rewrite Hc. cbn [andb].
    cbn [lstrip]. rewrite Hc. cbn [rstrip]. rewrite rstrip_idem, Hc. reflexivity.
Qed.

Lemma lower_char_idem (c : ascii) : lower_char (lower_char c) = lower_char c.
Proof.
  destruct c as [[] [] [] [] [] [] [] []]; vm_compute; reflexivity.
Qed.

Lemma lower_idem (s : string) : lower (lower s) = lower s.
Proof.
  induction s as [|c r IH]; cbn; [reflexivity|]. rewrite lower_char_idem, IH. reflexivity.
Qed.

Lemma length_substring0 (n : nat) (s : string) :
  String.length (substring 0 n s) = Nat.min n (String.length s).
Proof.
  revert s; induction n as [|n IH]; intros [|c r]; cbn; auto.
Qed.

End StrFacts.

Module SuggestFacts.
Import PyStr PyFloat Suggest.
Local Open Scope nat_scope.

Lemma reply_line_props (raw : string) (s : suggestion) :
  In s (reply_line raw) ->
  strip (text s) = text s /\ confidence s <> Fin lit_0_6.
Proof.
  unfold reply_line. intro H.
  destruct (startswith "REPLY_" (strip raw)); [|contradiction].
  destruct (split1 ":"%char (strip raw)) as [[_ rest]|]; [|contradiction].
  assert (Hc : forall ty c, strip c = c ->
     In s [{| text := c; type := ty;
              confidence := if mem_str ty ["acknowledgment"; "thanks"] then Fin lit_0_9
                            else if Nat.ltb (String.length c) 20 then Fin lit_0_7
                            else Fin lit_0_8 |}] ->
     strip (text s) = text s /\ confidence s <> Fin lit_0_6).
  { intros ty c Hs [<- | []]. cbn. split; [exact Hs|].
    repeat match goal with |- context [if ?b then _ else _] => destruct b end;
      discriminate. }
  destruct (startswith "[" (strip rest) && contains "]" (strip rest)).
  - destruct (split1 "]"%char (strip rest)) as [[a b]|].
    + exact (Hc _ _ (StrFacts.strip_idem b) H).
    + exact (Hc _ _ (StrFacts.strip_idem rest) H).
  - exact (Hc _ _ (StrFacts.strip_idem rest) H).
Qed.

Lemma firstn_in {A : Type} (n : nat) (l : list A) (x : A) :
  In x (firstn n l) -> In x l.
Proof.
  intro H. rewrite <- (firstn_skipn n l). apply in_or_app. left. exact H.
Qed.

Lemma smart_replies_length (out : string) :
  1 <= List.length (smart_replies_parse out) <= 3.
Proof.
  unfold smart_replies_parse.
  destruct (flat_map reply_line (split "010"%char (strip out))) as [|x l];
    rewrite length_firstn; cbn [List.length fallback_replies];
    [cbn; lia | split; [cbn; lia | apply Nat.le_min_l]].
Qed.

(** X2: [generate_smart_replies] returns at least one and at most three suggestions, whatever the model wrote. *)
Theorem smart_replies_count (out : string) :
  1 <= List.length (smart_replies_parse out) <= 3.
Proof. apply smart_replies_length. Qed.

(** X3: Every suggestion text has no surrounding whitespace, and the three canned replies are returned exactly when no [REPLY_] line of the output parses. *)
Theorem smart_replies_shape (out : string) :
  (forall s, In s (smart_replies_parse out) -> strip (text s) = text s) /\
  (smart_replies_parse out = fallback_replies <->
   flat_map reply_line (split "010"%char (strip out)) = []).
Proof.
  unfold smart_replies_parse.
  destruct (flat_map reply_line (split "010"%char (strip out))) as [|x l] eqn:E.
  - split.
    + intros s Hs. cbn in Hs.
      repeat destruct Hs as [<- | Hs]; try reflexivity; contradiction.
    + split; reflexivity.
  - assert (Hl : forall s, In s (x :: l) -> strip (text s) = text s /\ confidence s <> Fin lit_0_6).
    { intros s Hs. rewrite <- E in Hs. apply in_flat_map in Hs as (ln & _ & Hs).
      exact (reply_line_props ln s Hs). }
    split.
    + intros s Hs. apply firstn_in in Hs. apply (Hl s Hs).
    + split; [|discriminate].
      intro Hf. exfalso. destruct (Hl x (or_introl eq_refl)) as [_ Hc].
      cbn in Hf. injection Hf as Hx _. apply Hc. rewrite Hx. reflexivity.
Qed.
End SuggestFacts.

Module ChainFacts.
Import PyStr PyFloat Chains.
Local Open Scope nat_scope.

Lemma mem_str_in (s : string) (l : list string) : mem_str s l = true -> In s l.
Proof.
  unfold mem_str. intro H. apply existsb_exists in H as (x & Hx & E).
  apply String.eqb_eq in E. subst. exact Hx.
Qed.

Lemma classify_parse_valid (out : string) : mem_str (classify_parse out) valid_intents = true.
Proof.
  unfold classify_parse.
  destruct (mem_str (lower (strip out)) valid_intents) eqn:E; [exact E | reflexivity].
Qed.

Lemma classify_parse_fixed (v : string) :
  mem_str v valid_intents = true -> classify_parse v = v.
Proof.
  intro Hv. apply mem_str_in in Hv.
  repeat destruct Hv as [<- | Hv]; try reflexivity; contradiction.
Qed.

(** X1: [classify_intent] always returns one of the seven valid intents, and feeding its answer back through the same normalisation leaves it unchanged. *)
Theorem classify_intent_valid (out : string) :
  mem_str (classify_parse out) valid_intents = true /\
  classify_parse (classify_parse out) = classify_parse out.
Proof.
  split; [apply classify_parse_valid|].
  apply classify_parse_fixed, classify_parse_valid.
Qed.

Lemma tasks_parse_types (out ty d : string) :
  In (ty, d) (tasks_parse out) -> mem_str ty task_types = true.
Proof.
  unfold tasks_parse.
  destruct (String.eqb (strip out) "NO_TASKS" || String.eqb (strip out) EmptyString);
    [intros []|].
  intro H. apply in_flat_map in H as (ln & _ & H). unfold task_line in H.
  destruct (String.eqb (strip ln) EmptyString); [destruct H|].
  destruct (split1 ":"%char (strip ln)) as [[a b]|]; [|destruct H].
  destruct (mem_str (lower (strip a)) task_types) eqn:E; [|destruct H].
  destruct H as [H | []]. injection H as <- _. exact E.
Qed.

Lemma deadlines_parse_dates (out d s : string) :
  In (d, Some s) (deadlines_parse out) ->
  mem_str (lower s) ["none"; "not mentioned"; EmptyString] = false.
Proof.
  unfold deadlines_parse.
  destruct (String.eqb (strip out) "NO_DEADLINES" || String.eqb (strip out) EmptyString);
    [intros []|].
  intro H. apply in_flat_map in H as (ln & _ & H). unfold deadline_line in H.
  destruct (_ || _); [destruct H|].
  destruct (_ && _); [|destruct H as [H|[]]; discriminate].
  destruct (startswith _ _); [|destruct H as [H|[]]; discriminate].
  destruct (mem_str _ _) eqn:E; destruct H as [H|[]]; [discriminate|].
  injection H as _ <-. exact E.
Qed.

(** X5: Every task type produced by [extract_tasks] is task, deadline or meeting, and no deadline date produced by [detect_deadlines] is empty, none or not mentioned in any letter case. *)
Theorem extract_parsers_output (out : string) :
  (forall ty d, In (ty, d) (tasks_parse out) -> mem_str ty task_types = true) /\
  (forall d s, In (d, Some s) (deadlines_parse out) ->
     mem_str (lower s) ["none"; "not mentioned"; EmptyString] = false).
Proof.
  split; [apply tasks_parse_types | apply deadlines_parse_dates].
Qed.

Lemma spam_line_lower (pf : string -> option pyfloat) (st : spam_fields) (l : string) :
  lower (sf_spam_type st) = sf_spam_type st ->
  lower (sf_spam_type (spam_line pf st l)) = sf_spam_type (spam_line pf st l).
Proof.
  intro H. unfold spam_line.
  repeat match goal with |- context [if ?b then _ else _] =>
    lazymatch b with
    | startswith _ _ => destruct b
    end end; cbn [sf_spam_type]; try exact H.
  apply StrFacts.lower_idem.
Qed.

(** X6: The spam type returned by [detect_spam] is always in lower case. *)
Theorem spam_type_lowercase (pf : string -> option pyfloat) (content : string)
    (list_unsub : option string) (out : string) :
  lower (spam_type (detect_spam_parse pf content list_unsub out))
  = spam_type (detect_spam_parse pf content list_unsub out).
Proof.
  unfold detect_spam_parse, spam_parse. cbn [spam_type].
  generalize (split "010"%char (strip out)). intro ls.
  assert (H0 : lower (sf_spam_type spam_init) = sf_spam_type spam_init) by reflexivity.
  revert H0. generalize spam_init.
  induction ls as [|l ls IH]; intros st Hst; [exact Hst|].
  cbn. apply IH, spam_line_lower, Hst.
Qed.

Lemma search_some (m : string -> option string) (s g : string) :
  search m s = Some g -> exists s', m s' = Some g.
Proof.
  induction s as [|c r IH]; cbn [search]; destruct (m _) as [g'|] eqn:E;
    intro H; try (injection H as <-; eexists; exact E); try discriminate.
  exact (IH H).
Qed.

Lemma header_at_scheme (s g : string) :
  header_at s = Some g ->
  exists sch rest, g = sch ++ rest /\ (sch = "https://" \/ sch = "http://") /\
                   rest <> EmptyString.
Proof.
  assert (Hs : forall sch r, (sch = "https://" \/ sch = "http://") ->
            match span (fun c => negb (c =? ">")%char) (drop (length sch) r) with
            | (String c t, String ">" _) => Some (sch ++ String c t)
            | _ => None
            end = Some g -> exists sch rest, g = sch ++ rest /\
              (sch = "https://" \/ sch = "http://") /\ rest <> EmptyString).
  { intros sch r Hsch. destruct (span _ _) as [[|c1 t] [|c2 u]]; try discriminate.
    intro H. assert (Hg : Some (sch ++ String c1 t) = Some g).
    { rewrite <- H. destruct c2 as [[] [] [] [] [] [] [] []]; try discriminate; reflexivity. }
    injection Hg as <-. exists sch, (String c1 t). split; [reflexivity|].
    split; [exact Hsch | discriminate]. }
  destruct s as [|c r]; [discriminate|].
  destruct c as [[] [] [] [] [] [] [] []]; cbn [header_at]; try discriminate.
  destruct (startswith "https://" r); [apply Hs; left; reflexivity|].
  destruct (startswith "http://" r); [apply Hs; right; reflexivity | discriminate].
Qed.

(** X7: When the [list_unsubscribe] metadata matches the header pattern, that link is returned whatever the content, and it is an http:// or https:// URL with a non-empty rest. *)
Theorem header_link_scheme (h content g : string) :
  search header_at h = Some g ->
  extract_unsubscribe_link content (Some h) = Some g /\
  exists sch rest, g = sch ++ rest /\ (sch = "https://" \/ sch = "http://") /\
                   rest <> EmptyString.
Proof.
  intro H. split.
  - unfold extract_unsubscribe_link. rewrite H. reflexivity.
  - destruct (search_some _ _ _ H) as (s' & Hs'). exact (header_at_scheme _ _ Hs').
Qed.

End ChainFacts.

Module FallbackFacts.
Import PyStr PyFloat Analyzer Fallback.
Local Open Scope nat_scope.

Lemma length_append (s t : string) : String.length (s ++ t) = String.length s + String.length t.
Proof. induction s as [|c r IH]; cbn; [reflexivity | rewrite IH; reflexivity]. Qed.

(** X8: The rule-based summary is at most 150 characters long. *)
Theorem fallback_summary_length (m : message) :
  String.length (generate_summary m) <= 150.
Proof.
  unfold generate_summary, take.
  assert (Hc : String.length (if Nat.leb (String.length (strip (content m))) 150
                              then strip (content m)
                              else substring 0 147 (strip (content m)) ++ "...") <= 150).
  { destruct (Nat.leb _ 150) eqn:E.
    - apply Nat.leb_le, E.
    - rewrite length_append, StrFacts.length_substring0. cbn [String.length]. lia. }
  destruct (subject m) as [s|]; [|exact Hc].
  destruct (String.eqb s EmptyString); [exact Hc|].
  rewrite StrFacts.length_substring0. lia.
Qed.

Lemma hits_length (ks : list string) (m : message) (d : string) :
  In d (hits ks m) -> 11 <= String.length d <= 200.
Proof.
  unfold hits. intro H. apply in_flat_map in H as (k & _ & H).
  destruct (contains k (lower (content m))); [|destruct H].
  destruct (sentence_for k (content m)) as [sn|] eqn:E; [|destruct H].
  destruct H as [<- | []].
  unfold sentence_for in E. apply find_some in E as [_ E].
  apply andb_prop in E as [_ E]. apply Nat.ltb_lt in E.
  unfold take. rewrite StrFacts.length_substring0. lia.
Qed.

(** X9: The rule-based processor yields at most three tasks (type task, no deadline) and at most two deadlines (no date), each description between 11 and 200 characters long. *)
Theorem fallback_items_bounds (m : message) :
  List.length (tasks (Fallback.analyze m)) <= 3 /\
  List.length (deadlines (Fallback.analyze m)) <= 2 /\
  (forall t, In t (tasks (Fallback.analyze m)) ->
     task_type t = "task" /\ task_deadline t = None /\
     11 <= String.length (task_description t) <= 200) /\
  (forall d, In d (deadlines (Fallback.analyze m)) ->
     dl_date d = None /\ 11 <= String.length (dl_description d) <= 200).
Proof.
  unfold Fallback.analyze; cbn [tasks deadlines].
  split; [rewrite length_map; apply firstn_le_length|].
  split; [rewrite length_map; apply firstn_le_length|].
  split.
  - intros t Ht. apply in_map_iff in Ht as (d & <- & Hd).
    apply SuggestFacts.firstn_in, hits_length in Hd. cbn. auto.
  - intros dl Ht. apply in_map_iff in Ht as (d & <- & Hd).
    apply SuggestFacts.firstn_in, hits_length in Hd. cbn. auto.
Qed.

End FallbackFacts.

Module ServiceFacts.
Import PyStr PyFloat Chains Analyzer Service.
Local Open Scope nat_scope.

(** X10: When the analyser raises and the content has no priority or task keyword and no question mark, the fallback priority is 0.3, which fails the strict > 0.3 reply gate: no suggestions are generated or stored. *)
Theorem fallback_low_priority_no_suggestions (fromiso : string -> option string)
    (m : message) (e : exc) (commit : outcome unit) (sugg : outcome (list string))
    (emb : outcome unit) (w : world) :
  Fallback.any_in Fallback.high_priority_keywords (lower (content m)) = false ->
  Fallback.any_in Fallback.medium_priority_keywords (lower (content m)) = false ->
  contains "?" (content m) = false ->
  Fallback.any_in Fallback.task_keywords (lower (content m)) = false ->
  suggested (analyze_message fromiso m (Raise e) commit sugg emb w) = false /\
  suggestions (after (analyze_message fromiso m (Raise e) commit sugg emb w)) = suggestions w.
Proof.
  intros H1 H2 H3 H4.
  assert (Hp : priority_score (chosen_result m (Raise e)) = Fin lit_0_3).
  { cbn. unfold Fallback.calculate_priority. rewrite H1, H2, H3, H4. reflexivity. }
  assert (Hg : should_generate_replies (chosen_result m (Raise e)) (sender m) = false).
  { unfold should_generate_replies. rewrite Hp.
    unfold reply_threshold, lt. cbn [Qle_bool]. 
    replace (Qle_bool lit_0_3 lit_0_3) with true by reflexivity.
    rewrite andb_false_r. reflexivity. }
  unfold analyze_message. destruct commit as [[]|]; [|split; reflexivity].
  rewrite Hg. destruct emb as [[]|]; split; reflexivity.
Qed.

End ServiceFacts.

Module ServiceFacts2.
Import PyStr PyFloat Chains Analyzer Service.
Local Open Scope nat_scope.

Definition item_ok (i : actionable_item) : Prop :=
  mem_str (ai_type i) task_types = true /\ ai_completed i = false /\
  (ai_deadline i <> None -> ai_type i = "deadline").

Lemma items_of_ok (fromiso : string -> option string) (m : message) (r : result) :
  (forall t, In t (tasks r) -> mem_str (task_type t) task_types = true /\
                               task_deadline t = None) ->
  forall i, In i (items_of fromiso m r) -> item_ok i.
Proof.
  intros Ht i Hi. unfold items_of in Hi. apply in_app_or in Hi as [Hi|Hi];
    apply in_map_iff in Hi as (x & <- & Hx); unfold item_ok; cbn.
  - destruct (Ht x Hx) as [H1 _]. split; [exact H1|]. split; [reflexivity|].
    intro H; contradiction H; reflexivity.
  - split; [reflexivity|]. split; reflexivity.
Qed.

(** X11: Every actionable item stored by [analyze_message], from the orchestrator or from the fallback, has type task, deadline or meeting, is not completed, and carries a deadline date only if its type is deadline. *)
Theorem stored_items_shape (fromiso : string -> option string)
    (pf : string -> option pyfloat) (m : message) (o : llm_outputs) :
  (forall i, In i (items_of fromiso m (chosen_result m (Analyzer.analyze pf m o))) ->
             item_ok i) /\
  (forall i, In i (items_of fromiso m (Fallback.analyze m)) -> item_ok i).
Proof.
  split; apply items_of_ok.
  - intros t Ht. cbn in Ht. apply in_map_iff in Ht as ([ty d] & <- & Hx). cbn.
    split; [|reflexivity].
    destruct (out_tasks o) as [s|]; cbn in Hx; [|destruct Hx].
    exact (ChainFacts.tasks_parse_types _ _ _ Hx).
  - intros t Ht. cbn in Ht. apply in_map_iff in Ht as (d & <- & _). cbn.
    split; reflexivity.
Qed.

End ServiceFacts2.

Module LookupFacts.
Import PyStr PyFloat Chains Analyzer Service Lookup.
Local Open Scope nat_scope.






Lemma find_filtered {A : Type} (p : A -> bool) (l : list A) :
  find p (filter (fun x => negb (p x)) l) = None.
Proof.
  induction l as [|x l IH]; cbn; [reflexivity|].
  destruct (p x) eqn:E; cbn; [exact IH|]. rewrite E. exact IH.
Qed.



End LookupFacts.

Module StoreFacts.
Import PyStr PyFloat Chains Analyzer Service Lookup.
Local Open Scope nat_scope.

(** X14: After [delete_message_data] with successful relational deletes, [get_message_analysis] finds no analysis for the message. *)
Theorem lookup_after_delete (iso : string -> string)
    (order : list actionable_item -> list actionable_item)
    (client : outcome unit) (mid : string) (w : world) :
  get_message_analysis iso order (snd (delete_message_data (Ok tt) client mid w)) mid
  = Ok None.
Proof.
  unfold delete_message_data.
  destruct (delete_message_embedding client mid (points w)) as [b pts].
  unfold get_message_analysis. cbn [snd analyses].
  rewrite LookupFacts.find_filtered. reflexivity.
Qed.

Theorem analyze_message_appends_analysis (fromiso : string -> option string)
    (m : message) (analyzed : outcome result) (sugg : outcome (list string))
    (emb : outcome unit) (w : world) :
  let p := fun a => String.eqb a.(ar_message_id) m.(msg_id) in
  filter p (analyses (after (analyze_message fromiso m analyzed (Ok tt) sugg emb w)))
  = (filter p (analyses w) ++ [analysis_row_of m (chosen_result m analyzed)])%list.
Proof.
  intro p. rewrite (proj1 (Stores.after_analyses fromiso m analyzed sugg emb w)).
  rewrite filter_app. cbn. unfold p at 2. cbn [analysis_row_of ar_message_id].
  rewrite String.eqb_refl. reflexivity.
Qed.

Lemma after_points (fromiso : string -> option string) (m : message)
    (analyzed : outcome result) (commit : outcome unit) (sugg : outcome (list string))
    (emb : outcome unit) (w : world) :
  points (after (analyze_message fromiso m analyzed commit sugg emb w))
  = match commit, emb with
    | Ok _, Ok _ =>
        (filter (fun p => negb (String.eqb p.(pt_message_id) m.(msg_id))) (points w)
         ++ [{| pt_message_id := m.(msg_id); pt_user_id := m.(msg_user_id) |}])%list
    | _, _ => points w
    end.
Proof.
  unfold analyze_message.
  destruct commit as [[]|]; [|reflexivity].
  destruct (should_generate_replies _ _), sugg, emb as [[]|]; reflexivity.
Qed.

Lemma ids_nodup_filter {A B : Type} (key : A -> B) (keep : A -> bool) :
  forall xs : list A, NoDup (map key xs) -> NoDup (map key (filter keep xs)).
Proof.
  intro xs; induction xs as [|a xs IHxs]; intro Hnd; [constructor|].
  cbn in Hnd |- *. apply NoDup_cons_iff in Hnd as [Hnot Hrest].
  case (keep a); cbn; [|exact (IHxs Hrest)].
  apply NoDup_cons_iff; split; [|exact (IHxs Hrest)].
  rewrite in_map_iff; intros (b & Hb & Hin).
  apply filter_In in Hin as [Hin _].
  apply Hnot, in_map_iff; exists b; split; assumption.
Qed.

(** X15: [analyze_message] keeps message ids of the vector store unique, and after a successful upsert exactly one point carries the message's id. *)
Theorem embedding_point_unique (fromiso : string -> option string)
    (m : message) (analyzed : outcome result) (commit : outcome unit)
    (sugg : outcome (list string)) (emb : outcome unit) (w : world) :
  NoDup (map pt_message_id (points w)) ->
  NoDup (map pt_message_id
               (points (after (analyze_message fromiso m analyzed commit sugg emb w)))) /\
  (commit = Ok tt -> emb = Ok tt ->
   filter (fun p => String.eqb p.(pt_message_id) m.(msg_id))
          (points (after (analyze_message fromiso m analyzed commit sugg emb w)))
   = [{| pt_message_id := m.(msg_id); pt_user_id := m.(msg_user_id) |}]).
Proof.
  intro Hnd. rewrite after_points. split.
  - destruct commit, emb; try exact Hnd.
    rewrite map_app. apply NoDup_app.
    + apply ids_nodup_filter, Hnd.
    + repeat constructor. intros [].
    + intros x Hx [<- | []].
      apply in_map_iff in Hx as (y & Hy & Hin). apply filter_In in Hin as [_ Hin].
      rewrite Hy, String.eqb_refl in Hin. discriminate.
  - intros -> ->. rewrite filter_app, Stores.filter_none. cbn.
    rewrite String.eqb_refl. reflexivity.
Qed.

(** X16: Deleting a message's data after its analysis removes its analysis rows, actionable items and vector point, but keeps every reply-suggestion row. *)
Theorem delete_after_analysis_keeps_suggestions (fromiso : string -> option string)
    (m : message) (analyzed : outcome result) (sugg : outcome (list string))
    (emb : outcome unit) (w : world) :
  let w1 := after (analyze_message fromiso m analyzed (Ok tt) sugg emb w) in
  let d := delete_message_data (Ok tt) (Ok tt) (msg_id m) w1 in
  fst d = true /\
  filter (fun a => String.eqb a.(ar_message_id) m.(msg_id)) (analyses (snd d)) = [] /\
  filter (fun i => String.eqb i.(ai_message_id) m.(msg_id)) (items (snd d)) = [] /\
  filter (fun p => String.eqb p.(pt_message_id) m.(msg_id)) (points (snd d)) = [] /\
  suggestions (snd d) = suggestions w1.
Proof.
  intros w1 d. unfold d, delete_message_data, delete_message_embedding. cbn.
  repeat split; apply Stores.filter_none.
Qed.

End StoreFacts.

Module SuggestStore.
Import PyStr PyFloat Chains Analyzer Service.
Local Open Scope nat_scope.

(** X4: When the reply gate holds and generation succeeds, [analyze_message] appends between one and three suggestion rows, all for the analysed message and its user. *)
Theorem analysis_stores_one_to_three_suggestions (fromiso : string -> option string)
    (m : message) (analyzed : outcome result) (out : string) (emb : outcome unit)
    (w : world) :
  should_generate_replies (chosen_result m analyzed) (sender m) = true ->
  exists added,
    suggestions (after (analyze_message fromiso m analyzed (Ok tt)
                          (Ok (Suggest.suggestion_texts out)) emb w))
    = (suggestions w ++ added)%list /\
    1 <= List.length added <= 3 /\
    (forall sg, In sg added -> sg_message_id sg = msg_id m /\ sg_user_id sg = msg_user_id m).
Proof.
  intro Hg. unfold analyze_message. rewrite Hg.
  eexists. split; [destruct emb as [[]|]; reflexivity|]. split.
  - rewrite length_map. unfold Suggest.suggestion_texts. rewrite length_map.
    apply SuggestFacts.smart_replies_length.
  - intros sg Hsg. apply in_map_iff in Hsg as (t & <- & _). split; reflexivity.
Qed.

End SuggestStore.

Module ReplyFacts.
Import Reply.
Local Open Scope nat_scope.


Lemma no_pending (rs : list reply) (rid uid : nat) :
  (forall r, In r rs -> r_id r = rid -> r_status r <> Pending) ->
  find_pending rs rid uid = None.
Proof.
  intro H. destruct (find_pending rs rid uid) as [r|] eqn:E; [|reflexivity].
  destruct (ReplyReview.find_pending_spec _ _ _ _ E) as (Hin & Hid & Hs).
  exfalso. exact (H r Hin Hid Hs).
Qed.

Lemma update_status_rows (rid : nat) (st : status) (stamp : bool) (rs : list reply) :
  forall r, In r (update rid (set_status st stamp) rs) -> r_id r = rid -> r_status r = st.
Proof.
  intros r Hr Hid. unfold update in Hr. apply in_map_iff in Hr as (x & Hx & _).
  destruct (Nat.eqb (r_id x) rid) eqn:E.
  - rewrite <- Hx. reflexivity.
  - subst r. apply Nat.eqb_neq in E. contradiction.
Qed.

Lemma locked (rs : list reply) (rid : nat) :
  (forall r, In r rs -> r_id r = rid -> r_status r <> Pending) ->
  forall uid messages send record c,
    approve_reply rs messages rid uid send record = (Raise ValueError, rs) /\
    edit_reply rs rid uid c = (Raise ValueError, rs) /\
    reject_reply rs rid uid = (Raise ValueError, rs).
Proof.
  intros H uid messages send record c.
  unfold approve_reply, edit_reply, reject_reply. rewrite (no_pending _ _ uid H).
  repeat split.
Qed.

Lemma status_rows_not_pending (rid : nat) (st : status) (stamp : bool) (rs : list reply) :
  st <> Pending ->
  forall r, In r (update rid (set_status st stamp) rs) -> r_id r = rid -> r_status r <> Pending.
Proof.
  intros Hst r Hr Hid. rewrite (update_status_rows rid st stamp rs r Hr Hid). exact Hst.
Qed.

Lemma update_update (rid : nat) (f g : reply -> reply) (rs : list reply) :
  (forall x, r_id (f x) = r_id x) ->
  update rid g (update rid f rs) = update rid (fun x => g (f x)) rs.
Proof.
  intro Hf. unfold update. rewrite map_map. apply map_ext. intro x.
  destruct (Nat.eqb (r_id x) rid) eqn:E; [rewrite Hf, E | rewrite E]; reflexivity.
Qed.

(** X17: Once [approve_reply] has failed to send, the reply can no longer be approved, edited or rejected: each call raises ValueError and changes nothing. *)
Theorem failed_approve_is_final (rs rs' : list reply) (messages : list nat) (rid uid : nat)
    (send record : outcome unit) :
  approve_reply rs messages rid uid send record = (Raise SendFailed, rs') ->
  forall uid' messages' send' record' c,
    approve_reply rs' messages' rid uid' send' record' = (Raise ValueError, rs') /\
    edit_reply rs' rid uid' c = (Raise ValueError, rs') /\
    reject_reply rs' rid uid' = (Raise ValueError, rs').
Proof.
  intro H. apply locked.
  unfold approve_reply in H.
  destruct (find_pending rs rid uid) as [r|]; [|discriminate].
  destruct (negb _); [discriminate|].
  destruct send as [[]|].
  - destruct record as [[]|]; [discriminate|].
    injection H as <-. rewrite update_update by reflexivity.
    intros x Hx Hid. unfold update in Hx. apply in_map_iff in Hx as (y & Hy & _).
    destruct (Nat.eqb (r_id y) rid) eqn:E.
    + rewrite <- Hy. discriminate.
    + subst x. apply Nat.eqb_neq in E. contradiction.
  - injection H as <-. apply status_rows_not_pending. discriminate.
Qed.

(** X18: A successful [reject_reply] leaves the reply rejected, after which approving, editing or rejecting it raises ValueError and changes nothing. *)
Theorem reject_is_final (rs rs' : list reply) (rid uid : nat) (r : reply) :
  reject_reply rs rid uid = (Ok r, rs') ->
  r_status r = Rejected /\ status_of rs' rid = Some Rejected /\
  forall uid' messages send record c,
    approve_reply rs' messages rid uid' send record = (Raise ValueError, rs') /\
    edit_reply rs' rid uid' c = (Raise ValueError, rs') /\
    reject_reply rs' rid uid' = (Raise ValueError, rs').
Proof.
  unfold reject_reply. intro H.
  destruct (find_pending rs rid uid) as [r0|] eqn:E; [|discriminate].
  injection H as <- <-.
  split; [reflexivity|]. split.
  - unfold status_of. rewrite ReplyReview.find_update by reflexivity.
    destruct (ReplyReview.find_pending_spec _ _ _ _ E) as (Hin & Hid & _).
    destruct (find (fun x => Nat.eqb (r_id x) rid) rs) eqn:F; [reflexivity|].
    exfalso. pose proof (find_none _ _ F r0 Hin) as C. cbn in C.
    rewrite Hid, Nat.eqb_refl in C. discriminate.
  - apply locked, status_rows_not_pending. discriminate.
Qed.


(** X20: The outgoing subject of [_send_reply] is absent exactly when the original subject is absent or empty, otherwise starts with Re:, and computing it again from its own result changes nothing. *)
Theorem reply_subject_prefix (subj : option string) :
  reply_subject (reply_subject subj) = reply_subject subj /\
  (forall t, reply_subject subj = Some t -> PyStr.startswith "Re:" t = true) /\
  (reply_subject subj = None <-> subj = None \/ subj = Some EmptyString).
Proof.
  destruct subj as [s|]; [|split; [reflexivity | split; [discriminate | tauto]]].
  cbn [reply_subject].
  destruct (String.eqb_spec s EmptyString) as [->|Hne].
  - split; [reflexivity|]. split; [discriminate | tauto].
  - destruct (PyStr.startswith "Re:" s) eqn:Hs.
    + cbn [reply_subject]. destruct (String.eqb_spec s EmptyString); [contradiction|].
      rewrite Hs. split; [reflexivity|]. split.
      * intros t Ht. injection Ht as <-. exact Hs.
      * split; [discriminate|]. intros [H|H]; [discriminate | injection H as H; contradiction].
    + cbn [reply_subject String.eqb append]. cbn. split; [reflexivity|]. split.
      * intros t Ht. injection Ht as <-. reflexivity.
      * split; [discriminate|]. intros [H|H]; [discriminate | injection H as H; contradiction].
Qed.

End ReplyFacts.


Module Witnesses.
Import PyStr PyFloat Chains Analyzer Service Lookup Inputs Reply.
Local Open Scope nat_scope.

Lemma header_link_scheme_witness :
  search header_at "<https://x.com/u>" = Some "https://x.com/u" /\
  exists sch rest, "https://x.com/u" = sch ++ rest /\
    (sch = "https://" \/ sch = "http://") /\ rest <> EmptyString.
Proof.
  assert (H : search header_at "<https://x.com/u>" = Some "https://x.com/u")
    by (vm_compute; reflexivity).
  split; [exact H|].
  exact (proj2 (ChainFacts.header_link_scheme _ EmptyString _ H)).
Defined.

Lemma fallback_low_priority_no_suggestions_witness :
  is_replyable_sender "a@b.c" = true /\
  suggested (analyze_message (fun _ => None) (msg "a@b.c" EmptyString "hello there")
               (Raise ModelError) (Ok tt) (Ok ["Sure"]) (Ok tt) empty_world) = false.
Proof.
  split; [vm_compute; reflexivity|].
  apply (ServiceFacts.fallback_low_priority_no_suggestions (fun _ => None)
           (msg "a@b.c" EmptyString "hello there") ModelError (Ok tt) (Ok ["Sure"]) (Ok tt)
           empty_world); vm_compute; reflexivity.
Defined.


Lemma embedding_point_unique_witness :
  filter (fun p => String.eqb p.(pt_message_id) "m1")
    (points (after (analyze_message (fun _ => None) (msg "a@b.c" EmptyString "hi")
                      (Raise ModelError) (Ok tt) (Ok []) (Ok tt)
                      {| analyses := []; items := []; suggestions := [];
                         points := [{| pt_message_id := "m1"; pt_user_id := "u1" |};
                                    {| pt_message_id := "m2"; pt_user_id := "u1" |}] |})))
  = [{| pt_message_id := "m1"; pt_user_id := "u1" |}].
Proof.
  apply (StoreFacts.embedding_point_unique (fun _ => None) (msg "a@b.c" EmptyString "hi")
           (Raise ModelError) (Ok tt) (Ok []) (Ok tt)
           {| analyses := []; items := []; suggestions := [];
              points := [{| pt_message_id := "m1"; pt_user_id := "u1" |};
                         {| pt_message_id := "m2"; pt_user_id := "u1" |}] |}).
  - vm_compute. constructor; [intros [H|[]]; discriminate|].
    constructor; [intros []|]. constructor.
  - reflexivity.
  - reflexivity.
Defined.

Lemma analysis_stores_one_to_three_suggestions_witness :
  should_generate_replies
    (chosen_result (msg "a@b.c" EmptyString "urgent: call me") (Raise ModelError)) "a@b.c"
  = true /\
  exists added,
    suggestions (after (analyze_message (fun _ => None) (msg "a@b.c" EmptyString "urgent: call me")
                          (Raise ModelError) (Ok tt)
                          (Ok (Suggest.suggestion_texts "no replies here")) (Ok tt) empty_world))
    = (suggestions empty_world ++ added)%list /\ 1 <= List.length added <= 3.
Proof.
  split; [vm_compute; reflexivity|].
  destruct (SuggestStore.analysis_stores_one_to_three_suggestions (fun _ => None)
              (msg "a@b.c" EmptyString "urgent: call me") (Raise ModelError) "no replies here"
              (Ok tt) empty_world)
    as (added & H1 & H2 & _).
  - vm_compute. reflexivity.
  - exists added. split; assumption.
Defined.

Definition pending_reply : reply :=
  {| r_id := 1; r_user_id := 7; r_message_id := 3; draft_content := "Thanks!";
     r_status := Pending; reviewed := false; sent_stamp := false |}.

Definition replies : list reply :=
  [pending_reply;
   {| r_id := 2; r_user_id := 7; r_message_id := 3; draft_content := "Noted";
      r_status := Suggestion; reviewed := false; sent_stamp := false |}].

Lemma failed_approve_is_final_witness :
  approve_reply (snd (approve_reply replies [3] 1 7 (Raise StoreError) (Ok tt)))
    [3] 1 7 (Ok tt) (Ok tt)
  = (Raise ValueError, snd (approve_reply replies [3] 1 7 (Raise StoreError) (Ok tt))).
Proof.
  assert (E : approve_reply replies [3] 1 7 (Raise StoreError) (Ok tt)
              = (Raise SendFailed, snd (approve_reply replies [3] 1 7 (Raise StoreError) (Ok tt))))
    by (vm_compute; reflexivity).
  destruct (ReplyFacts.failed_approve_is_final replies
              (snd (approve_reply replies [3] 1 7 (Raise StoreError) (Ok tt))) [3] 1 7
              (Raise StoreError) (Ok tt) E 7 [3] (Ok tt) (Ok tt) EmptyString) as [H _].
  exact H.
Defined.

Lemma reject_is_final_witness :
  status_of (snd (reject_reply replies 1 7)) 1 = Some Rejected /\
  fst (edit_reply (snd (reject_reply replies 1 7)) 1 7 "late edit") = Raise ValueError.
Proof.
  assert (E : reject_reply replies 1 7
              = (Ok (set_status Rejected false pending_reply),
                 snd (reject_reply replies 1 7))) by (vm_compute; reflexivity).
  destruct (ReplyFacts.reject_is_final replies (snd (reject_reply replies 1 7)) 1 7
              (set_status Rejected false pending_reply) E) as (_ & H2 & H3).
  split; [exact H2|].
  destruct (H3 7 [3] (Ok tt) (Ok tt) "late edit") as (_ & H4 & _).
  rewrite H4. reflexivity.
Defined.


End Witnesses.
